(** * Mailgun webhook views of django-anymail

    A shallow embedding of [anymail/webhooks/mailgun.py]: the signature check
    of [MailgunBaseWebhookView], the tracking mapper of
    [MailgunTrackingWebhookView] and the inbound mapper of
    [MailgunInboundWebhookView].

    Python values are modelled as follows.
    - [str] is [string]; a character is its code point, so the model covers
      the code points below 256 and [encode('ascii')] fails from 128 on.
    - [bytes] is [string] as well (one character per byte).
    - [int] is [Z].
    - a value that may be [None] is an [option].
    - a call that may raise is a [result]; [try]/[except]/[else] is the
      combinator [try_]. *)

From Stdlib Require Import ZArith List String Ascii Bool Lia DecimalString.
From Stdlib Require Import QArith_base Qreduction.
Import ListNotations.
Close Scope Q_scope.
Local Open Scope string_scope.
Local Open Scope list_scope.

(** ** Python: exceptions, control flow, [str] and [int] *)

Module Py.

(** The exception classes the module can meet. *)
Inductive exc_class : Type :=
| KeyError
| TypeError
| ValueError
| IndexError
| AttributeError
| OverflowError
| OSError
| UnicodeEncodeError
| JSONDecodeError.

Scheme Equality for exc_class.

(** [UnicodeEncodeError] and [json.JSONDecodeError] derive from [ValueError]. *)
Definition issubclass (c base : exc_class) : bool :=
  exc_class_beq c base ||
  match c, base with
  | UnicodeEncodeError, ValueError => true
  | JSONDecodeError, ValueError => true
  | _, _ => false
  end.

(** A raised exception: one of the library's, or Anymail's validation failure
    with its message. *)
Inductive exn : Type :=
| Builtin (c : exc_class)
| AnymailWebhookValidationFailure (msg : string).

Inductive result (A : Type) : Type :=
| Return (a : A)
| Raise (e : exn).

Arguments Return {A} a.
Arguments Raise {A} e.

Definition bind {A B : Type} (m : result A) (k : A -> result B) : result B :=
  match m with
  | Return a => k a
  | Raise e => Raise e
  end.

Definition raise_ {A : Type} (c : exc_class) : result A := Raise (Builtin c).

(** What a call returned, seen through [f]; [None] when it raised. *)
Definition returned {A B : Type} (f : A -> B) (r : result A) : option B :=
  match r with
  | Return a => Some (f a)
  | Raise _ => None
  end.

(** What a call raised; [None] when it returned. *)
Definition raised {A : Type} (r : result A) : option exn :=
  match r with
  | Return _ => None
  | Raise e => Some e
  end.

(** [except (c1, c2, ...)] catches [e]. *)
Definition caught (e : exn) (classes : list exc_class) : bool :=
  match e with
  | Builtin c => existsb (issubclass c) classes
  | AnymailWebhookValidationFailure _ => false
  end.

(** The first [except] clause that catches [e], if any. *)
Fixpoint handler_for {B : Type} (e : exn)
    (handlers : list (list exc_class * result B)) : option (result B) :=
  match handlers with
  | [] => None
  | (classes, h) :: rest =>
      if caught e classes then Some h else handler_for e rest
  end.

(** [try: body / except ...: handler / else: orelse]. What [orelse] raises is
    not caught. *)
Definition try_ {A B : Type} (body : result A)
    (handlers : list (list exc_class * result B))
    (orelse : A -> result B) : result B :=
  match body with
  | Return a => orelse a
  | Raise e =>
      match handler_for e handlers with
      | Some h => h
      | None => Raise e
      end
  end.

(** *** [str] *)

Definition chars (s : string) : list ascii := list_ascii_of_string s.

(** [bool(s)]: a [str] is true when it is not empty. *)
Definition truthy (s : string) : bool :=
  match s with
  | EmptyString => false
  | String _ _ => true
  end.

(** [s.startswith(p)]. *)
Definition startswith (s p : string) : bool := String.prefix p s.

(** [s.endswith(p)], for a one-character [p]. *)
Fixpoint endswith_char (s : string) (c : ascii) : bool :=
  match s with
  | EmptyString => false
  | String a EmptyString => Ascii.eqb a c
  | String _ r => endswith_char r c
  end.

(** [s.split(sep)] for a one-character separator: never the empty list. *)
Fixpoint split (sep : ascii) (s : string) : list string :=
  match s with
  | EmptyString => [EmptyString]
  | String c r =>
      if Ascii.eqb c sep then EmptyString :: split sep r
      else match split sep r with
           | h :: t => String c h :: t
           | [] => [String c EmptyString]
           end
  end.

(** [l[i]] on a list. *)
Definition list_getitem {A : Type} (l : list A) (i : nat) : result A :=
  match nth_error l i with
  | Some a => Return a
  | None => raise_ IndexError
  end.

(** [c.lower()] on the code points below 256: A-Z and the accented capitals
    192-222 (215, the multiplication sign, apart) move up by 32. *)
Definition lower_char (c : ascii) : ascii :=
  let n := N_of_ascii c in
  if ((65 <=? n) && (n <=? 90) ||
      (192 <=? n) && (n <=? 222) && negb (n =? 215))%N
  then ascii_of_N (n + 32)
  else c.

Fixpoint lower (s : string) : string :=
  match s with
  | EmptyString => EmptyString
  | String c r => String (lower_char c) (lower r)
  end.

(** [s.encode('ascii')]: the same bytes when every code point is below 128. *)
Definition is_ascii (s : string) : bool :=
  forallb (fun c => (N_of_ascii c <? 128)%N) (chars s).

Definition encode_ascii (s : string) : result string :=
  if is_ascii s then Return s else raise_ UnicodeEncodeError.

(** *** [int(s)] for a [str] and base 10

    Blanks are stripped on both sides, then come an optional sign and decimal
    digits, where one underscore may stand between two digits. The bound that
    Python 3.11 puts on the number of digits is left out: [int] has all of
    [Z]. *)
Definition is_space (c : ascii) : bool :=
  match N_of_ascii c with
  | 9 | 10 | 11 | 12 | 13 | 32 | 133 | 160 => true
  | _ => false
  end%N.

Definition digit_of (c : ascii) : option Z :=
  let n := N_of_ascii c in
  if ((48 <=? n) && (n <=? 57))%N then Some (Z.of_N n - 48)%Z else None.

Fixpoint lstrip (l : list ascii) : list ascii :=
  match l with
  | c :: r => if is_space c then lstrip r else l
  | [] => []
  end.

Definition strip (l : list ascii) : list ascii :=
  rev (lstrip (rev (lstrip l))).

(** [after_digit] says that the character before was a digit. *)
Fixpoint digits (acc : Z) (after_digit : bool) (l : list ascii) : option Z :=
  match l with
  | [] => if after_digit then Some acc else None
  | c :: r =>
      match digit_of c with
      | Some d => digits (10 * acc + d)%Z true r
      | None =>
          if Ascii.eqb c "_" && after_digit then digits acc false r else None
      end
  end.

Definition int_literal (l : list ascii) : option Z :=
  match l with
  | "+"%char :: r => digits 0 false r
  | "-"%char :: r => option_map Z.opp (digits 0 false r)
  | _ => digits 0 false l
  end.

Definition int (s : string) : result Z :=
  match int_literal (strip (chars s)) with
  | Some n => Return n
  | None => raise_ ValueError
  end.

(** [range(lo, hi)]. *)
Definition range (lo hi : Z) : list Z :=
  map (fun k => (lo + Z.of_nat k)%Z) (seq 0 (Z.to_nat (hi - lo))).

(** [d.get(k, default)] on a constant table. *)
Fixpoint table_get {K V : Type} (eqb : K -> K -> bool) (table : list (K * V))
    (k : K) (default : V) : V :=
  match table with
  | [] => default
  | (k', v) :: rest => if eqb k' k then v else table_get eqb rest k default
  end.

(** [[f(x) for x in l]], where [f] may raise. *)
Fixpoint for_each {A B : Type} (f : A -> result B) (l : list A) : result (list B) :=
  match l with
  | [] => Return []
  | x :: rest =>
      bind (f x) (fun y => bind (for_each f rest) (fun ys => Return (y :: ys)))
  end.

(** ['%d' % i]. *)
Definition format_d (i : Z) : string := NilZero.string_of_int (Z.to_int i).

End Py.

Declare Scope py_scope.
Delimit Scope py_scope with py.
Notation "x <- m ;; k" := (Py.bind m (fun x => k))
  (at level 61, m at next level, right associativity) : py_scope.


(** ** JSON values, as [json.loads] returns them *)

Module Json.

(** A number written with a fraction or an exponent is a Python [float]; the
    model keeps its literal. An object keeps its entries in order, one per
    key, as a Python [dict] does. *)
#[warnings="-register-all"]
Inductive json : Type :=
| JNull
| JBool (b : bool)
| JInt (n : Z)
| JFloat (literal : string)
| JStr (s : string)
| JList (items : list json)
| JDict (entries : list (string * json)).

(** [iter(v)]: a list yields its items, a dict its keys, a str its
    characters; the other values are not iterable. *)
Definition iter (v : json) : Py.result (list json) :=
  match v with
  | JList items => Py.Return items
  | JDict entries => Py.Return (map (fun kv => JStr (fst kv)) entries)
  | JStr s => Py.Return (map (fun c => JStr (String c EmptyString)) (Py.chars s))
  | JNull | JBool _ | JInt _ | JFloat _ => Py.raise_ Py.TypeError
  end.

(** [[a, b] = v]: unpacking into two targets. *)
Definition unpack2 (v : json) : Py.result (json * json) :=
  Py.bind (iter v) (fun items =>
    match items with
    | [a; b] => Py.Return (a, b)
    | _ => Py.raise_ Py.ValueError
    end).

(** [v == s] for a [str] constant [s]. *)
Definition eq_str (v : json) (s : string) : bool :=
  match v with
  | JStr t => String.eqb t s
  | _ => false
  end.

(** [v.items()]: only a dict has the method. *)
Definition items (v : json) : Py.result (list (string * json)) :=
  match v with
  | JDict entries => Py.Return entries
  | _ => Py.raise_ Py.AttributeError
  end.

(** [hash(v)] succeeds: lists and dicts cannot be dict keys. *)
Definition hashable (v : json) : bool :=
  match v with
  | JList _ | JDict _ => false
  | _ => true
  end.

(** *** [dict] with [str] keys: entries in insertion order, one per key *)

Definition dict : Type := list (string * json).

Fixpoint dict_get (d : dict) (k : string) : option json :=
  match d with
  | [] => None
  | (k', v) :: rest => if String.eqb k' k then Some v else dict_get rest k
  end.

(** [d[k] = v]: a key already there keeps its place. *)
Fixpoint dict_set (d : dict) (k : string) (v : json) : dict :=
  match d with
  | [] => [(k, v)]
  | (k', v') :: rest =>
      if String.eqb k' k then (k', v) :: rest else (k', v') :: dict_set rest k v
  end.

(** [d.update(other)]. *)
Definition dict_update (d other : dict) : dict :=
  fold_left (fun acc kv => dict_set acc (fst kv) (snd kv)) other d.

End Json.

(** ** Django: [QueryDict], uploaded files, the request *)

Module Django.

(** A [QueryDict] as the form parser fills it: the (name, value) pairs of the
    posted form, in order. Names are compared case-sensitively. *)
Definition QueryDict : Type := list (string * string).

(** [q.getlist(key)] when the key is there: every value, in order. *)
Definition values_of {V : Type} (q : list (string * V)) (key : string) : list V :=
  map snd (filter (fun kv => String.eqb (fst kv) key) q).

(** [key in q]. *)
Definition contains {V : Type} (q : list (string * V)) (key : string) : bool :=
  existsb (fun kv => String.eqb (fst kv) key) q.

(** [q[key]]: the last value of the key; [MultiValueDictKeyError], a
    [KeyError], when the key is absent. *)
Definition getitem {V : Type} (q : list (string * V)) (key : string) : Py.result V :=
  match rev (values_of q key) with
  | v :: _ => Py.Return v
  | [] => Py.raise_ Py.KeyError
  end.

(** [q.get(key, default)]. *)
Definition get (q : QueryDict) (key : string) (default : option string)
    : option string :=
  match getitem q key with
  | Py.Return v => Some v
  | Py.Raise _ => default
  end.

(** [q.get(key, default)] with a [str] default. *)
Definition get_str (q : QueryDict) (key default : string) : string :=
  match getitem q key with
  | Py.Return v => v
  | Py.Raise _ => default
  end.

(** [q.getlist(key, default)]. *)
Definition getlist (q : QueryDict) (key : string) (default : list string)
    : list string :=
  if contains q key then values_of q key else default.

(** An uploaded file of [request.FILES]. *)
Record UploadedFile : Type := {
  name : string;
  content_type : string;
  content : string
}.

Record HttpRequest : Type := {
  POST : QueryDict;
  FILES : list (string * UploadedFile)
}.

(** [django.utils.crypto.constant_time_compare]: equality of the two strings,
    in time that does not depend on where they differ. *)
Definition constant_time_compare (val1 val2 : string) : bool :=
  String.eqb val1 val2.

End Django.

(** ** What the module takes from its libraries and from the rest of Anymail *)

(** Python's and Django's library functions whose results the model does not
    compute: [datetime.fromtimestamp(n, tz=utc)] (which timestamps it refuses
    depends on the platform), [float(s)] for a [str] ([None]: it raises
    [ValueError]), [json.loads(s)] for a [str] ([None]: it raises
    [JSONDecodeError]) and [hmac.new(key, msg, sha256).hexdigest()]. *)
Class Library : Type := {
  datetime : Type;
  float : Type;
  fromtimestamp_utc : Z -> Py.result datetime;
  float_of_str : string -> option float;
  json_loads_str : string -> option Json.json;
  hmac_sha256_hexdigest : string -> string -> string
}.

(** ** Anymail: the normalized events and the inbound message *)

Module EventType.

(** The members of [signals.EventType] the module names. *)
Inductive t : Type :=
| DELIVERED
| REJECTED
| BOUNCED
| COMPLAINED
| UNSUBSCRIBED
| OPENED
| CLICKED
| INBOUND
| UNKNOWN.

End EventType.

Module RejectReason.

(** The members of [signals.RejectReason] the module names. *)
Inductive t : Type :=
| TIMED_OUT
| BOUNCED
| SPAM
| OTHER.

End RejectReason.

Module Anymail.

Import Py Json Django.
Local Open Scope py_scope.

(** An attachment of an inbound message.
    Modelled from the spec: [AnymailInboundMessage]'s attachments are not in
    the sources; the spec gives each a content, a filename and a content-id. *)
Record Attachment : Type := {
  payload : string;
  filename : string;
  content_id : option string
}.

(** Modelled from the spec: [AnymailInboundMessage
    .construct_attachment_from_uploaded_file] is not in the sources; the
    attachment takes the file's content and name, and the content-id given. *)
Definition construct_attachment_from_uploaded_file (file : UploadedFile)
    (cid : option string) : Attachment :=
  {| payload := content file; filename := name file; content_id := cid |}.

(** What a message holds of its MIME form.
    Modelled from the spec: a header mapping, a plain-text body, an HTML body
    and a list of attachments. *)
Record MimeParts : Type := {
  headers : list (string * string);
  text : option string;
  html : option string;
  attachments : list Attachment
}.

(** A JSON list of [name, value] pairs of strings, as a header list. *)
Fixpoint headers_of_items (items : list json) : option (list (string * string)) :=
  match items with
  | [] => Some []
  | JList [JStr n; JStr v] :: rest =>
      option_map (cons (n, v)) (headers_of_items rest)
  | _ => None
  end.

Definition headers_of_json (v : json) : option (list (string * string)) :=
  match v with
  | JList items => headers_of_items items
  | _ => None
  end.

(** [d1.update(d2)...] over all the arguments, from an empty dict. *)
Definition merge_all (ds : list dict) : dict :=
  fold_left dict_update ds [].

Fixpoint all_dicts (args : list json) : option (list dict) :=
  match args with
  | [] => Some []
  | JDict d :: rest => option_map (cons d) (all_dicts rest)
  | _ => None
  end.

(** The code of Anymail the module calls and the sources do not hold, as far
    as the spec does not describe it: the inherited
    [AnymailBaseWebhookView.validate_request] (the optional basic-auth check),
    the MIME parser behind [AnymailInboundMessage.parse_raw_mime], and what
    [utils.combine] and [AnymailInboundMessage.construct] do with arguments
    other than those the spec speaks of. *)
Class Collaborators : Type := {
  base_validate_request : HttpRequest -> Py.result unit;
  parse_mime : string -> Py.result MimeParts;
  combine_other : list json -> Py.result json;
  construct_other :
    json -> option string -> option string -> option (list Attachment) ->
    Py.result MimeParts
}.

(** Modelled from the spec: [utils.combine] is not in the sources; the spec
    has it shallow-merge the parsed dictionaries into one mapping, a later
    one overriding the keys of the earlier ones. *)
Definition combine `{Collaborators} (args : list json) : Py.result json :=
  match all_dicts args with
  | Some ds => Return (JDict (merge_all ds))
  | None => combine_other args
  end.

Section Events.

Context {L : Library}.

(** [signals.AnymailTrackingEvent], with the attributes the module sets.
    Modelled from the spec: the class is not in the sources. *)
Record AnymailTrackingEvent : Type := {
  event_type : EventType.t;
  timestamp : datetime;
  message_id : option string;
  event_id : option string;
  recipient : option string;
  reject_reason : option RejectReason.t;
  description : option string;
  mta_response : option string;
  tags : list string;
  metadata : json;
  click_url : option string;
  user_agent : option string;
  esp_event : QueryDict
}.

(** [inbound.AnymailInboundMessage].
    Modelled from the spec: the class is not in the sources; besides its MIME
    parts a message has an envelope sender and recipient, the stripped reply
    text and HTML, a spam-detected flag and an optional spam score, all unset
    on a new message. *)
Record AnymailInboundMessage : Type := {
  parts : MimeParts;
  envelope_sender : option string;
  envelope_recipient : option string;
  stripped_text : option string;
  stripped_html : option string;
  spam_detected : option bool;
  spam_score : option float
}.

Definition new_message (p : MimeParts) : AnymailInboundMessage :=
  {| parts := p;
     envelope_sender := None;
     envelope_recipient := None;
     stripped_text := None;
     stripped_html := None;
     spam_detected := None;
     spam_score := None |}.

(** [message[name]]: the first header of that name, compared without regard
    to case (the source notes that, unlike [request.POST], the headers of an
    [email.message.Message] are case-insensitive); [None] when there is none. *)
Definition header (m : AnymailInboundMessage) (name : string) : option string :=
  option_map snd
    (find (fun nv => String.eqb (lower (fst nv)) (lower name)) (headers (parts m))).

(** [message.get(name, default)]. *)
Definition header_get (m : AnymailInboundMessage) (name default : string) : string :=
  match header m name with
  | Some v => v
  | None => default
  end.

(** [signals.AnymailInboundEvent].
    Modelled from the spec: the class is not in the sources. *)
Record AnymailInboundEvent : Type := {
  inbound_event_type : EventType.t;
  inbound_timestamp : datetime;
  inbound_event_id : option string;
  inbound_esp_event : HttpRequest;
  message : AnymailInboundMessage
}.

Context {C : Collaborators}.

(** [AnymailInboundMessage.parse_raw_mime(s)]. *)
Definition parse_raw_mime (s : string) : Py.result AnymailInboundMessage :=
  p <- parse_mime s ;; Return (new_message p).

(** [AnymailInboundMessage.construct(headers, text, html, attachments)].
    Modelled from the spec: the method is not in the sources; the message
    takes the header list, the two bodies and the attachments given. *)
Definition construct (hdrs : json) (body_text body_html : option string)
    (atts : option (list Attachment)) : Py.result AnymailInboundMessage :=
  match headers_of_json hdrs with
  | Some h =>
      Return (new_message
        {| headers := h;
           text := body_text;
           html := body_html;
           attachments := match atts with Some l => l | None => [] end |})
  | None =>
      p <- construct_other hdrs body_text body_html atts ;;
      Return (new_message p)
  end.

End Events.

End Anymail.

(** ** [anymail/webhooks/mailgun.py] *)

Module MailgunBaseWebhookView.

Import Py Json Django Anymail.
Local Open Scope py_scope.

(** The view: its [api_key], as bytes. *)
Record t : Type := { api_key : string }.

(** [__init__], given the value of the [api_key] setting. *)
Definition init (api_key_setting : string) : result t :=
  key <- encode_ascii api_key_setting ;;
  Return {| api_key := key |}.

Definition without_fields : string :=
  "Mailgun webhook called without required security fields".

Definition incorrect_signature : string :=
  "Mailgun webhook called with incorrect signature".

Section View.

Context {L : Library} {C : Collaborators}.

(** The [try] block of [validate_request]: the three security fields. *)
Definition security_fields (request : HttpRequest)
    : result (string * string * string) :=
  try_
    (token <- getitem (POST request) "token" ;;
     timestamp <- getitem (POST request) "timestamp" ;;
     signature <- getitem (POST request) "signature" ;;
     Return (token, timestamp, signature))
    [([KeyError], Raise (AnymailWebhookValidationFailure without_fields))]
    Return.

Definition validate_request (self : t) (request : HttpRequest) : result unit :=
  _ <- base_validate_request request ;;
  fields <- security_fields request ;;
  let '(token, timestamp, signature) := fields in
  msg <- encode_ascii (timestamp ++ token)%string ;;
  let expected_signature := hmac_sha256_hexdigest (api_key self) msg in
  if negb (constant_time_compare signature expected_signature)
  then Raise (AnymailWebhookValidationFailure incorrect_signature)
  else Return tt.

End View.

End MailgunBaseWebhookView.

Module MailgunTrackingWebhookView.

Import Py Json Django Anymail.
Local Open Scope py_scope.

Definition event_types : list (string * EventType.t) :=
  [ ("delivered", EventType.DELIVERED);
    ("dropped", EventType.REJECTED);
    ("bounced", EventType.BOUNCED);
    ("complained", EventType.COMPLAINED);
    ("unsubscribed", EventType.UNSUBSCRIBED);
    ("opened", EventType.OPENED);
    ("clicked", EventType.CLICKED) ].

Definition reject_reasons : list (Z * RejectReason.t) :=
  [ (499%Z, RejectReason.TIMED_OUT);
    (605%Z, RejectReason.BOUNCED);
    (607%Z, RejectReason.SPAM) ].

(** Lines 83-84: [<...>] around a message id that is not empty and does not
    start with [<]. *)
Definition angle_bracketed (message_id : option string) : option string :=
  match message_id with
  | Some id =>
      if truthy id && negb (startswith id "<")
      then Some ("<" ++ id ++ ">")%string
      else Some id
  | None => None
  end.

(** Lines 82-84. *)
Definition message_id_of (esp_event : QueryDict) : option string :=
  angle_bracketed
    (get esp_event "Message-Id" (get esp_event "message-id" None)).

(** Lines 88-106. *)
Definition reject_reason_of (esp_event : QueryDict)
    : result (option RejectReason.t) :=
  try_
    (code <- getitem esp_event "code" ;; int code)
    [ ([KeyError; TypeError], Return None);
      ([ValueError],
       try_
         (code <- getitem esp_event "code" ;;
          list_getitem (split "." code) 0)
         [([TypeError; IndexError], Return None)]
         (fun status_class =>
            Return (Some (if existsb (String.eqb status_class) ["4"; "5"]
                          then RejectReason.BOUNCED
                          else RejectReason.OTHER)))) ]
    (fun mta_status =>
       Return (Some (table_get Z.eqb reject_reasons mta_status
                       (if (400 <=? mta_status)%Z && (mta_status <? 600)%Z
                        then RejectReason.BOUNCED
                        else RejectReason.OTHER)))).

Section View.

Context {L : Library} {C : Collaborators}.

(** [json.loads(s)] for a [str]. *)
Definition loads (s : string) : result json :=
  match json_loads_str s with
  | Some v => Return v
  | None => raise_ JSONDecodeError
  end.

(** [json.loads(v)] for a value met in parsed JSON: only a [str] is
    accepted. *)
Definition loads_value (v : json) : result json :=
  match v with
  | JStr s => loads s
  | _ => raise_ TypeError
  end.

(** Lines 116-117: [[value for [field, value] in headers
    if field == 'X-Mailgun-Variables']]. *)
Definition variables_of (hdrs : json) : result (list json) :=
  entries <- iter hdrs ;;
  pairs <- for_each unpack2 entries ;;
  Return (map snd (filter (fun fv => eq_str (fst fv) "X-Mailgun-Variables") pairs)).

(** Lines 111-122. *)
Definition metadata_of (esp_event : QueryDict) : result json :=
  try_
    (text <- getitem esp_event "message-headers" ;; loads text)
    [([KeyError], Return (JDict []))]
    (fun hdrs =>
       variables <- variables_of hdrs ;;
       if (1 <=? List.length variables)%nat
       then parsed <- for_each loads_value variables ;; combine parsed
       else Return (JDict [])).

Definition esp_to_anymail_event (self : MailgunBaseWebhookView.t)
    (esp_event : QueryDict) : result AnymailTrackingEvent :=
  event <- getitem esp_event "event" ;;
  let event_type := table_get String.eqb event_types event EventType.UNKNOWN in
  seconds <- getitem esp_event "timestamp" ;;
  seconds <- int seconds ;;
  timestamp <- fromtimestamp_utc seconds ;;
  let message_id := message_id_of esp_event in
  let description := get esp_event "description" None in
  let mta_response := get esp_event "error" (get esp_event "notification" None) in
  reject_reason <- reject_reason_of esp_event ;;
  metadata <- metadata_of esp_event ;;
  let tags := getlist esp_event "tag" (getlist esp_event "X-Mailgun-Tag" []) in
  Return
    {| event_type := event_type;
       timestamp := timestamp;
       message_id := message_id;
       event_id := get esp_event "token" None;
       recipient := get esp_event "recipient" None;
       reject_reason := reject_reason;
       description := description;
       mta_response := mta_response;
       tags := tags;
       metadata := metadata;
       click_url := get esp_event "url" None;
       user_agent := get esp_event "user-agent" None;
       esp_event := esp_event |}.

Definition parse_events (self : MailgunBaseWebhookView.t) (request : HttpRequest)
    : result (list AnymailTrackingEvent) :=
  e <- esp_to_anymail_event self (POST request) ;; Return [e].

End View.

End MailgunTrackingWebhookView.

Module MailgunInboundWebhookView.

Import Py Json Django Anymail.
Local Open Scope py_scope.

(** Line 191. *)
Definition att_ids_of (attachment_count : Z) : list string :=
  map (fun i => ("attachment-" ++ format_d i)%string) (range 1 (attachment_count + 1)).

(** Lines 192-195: the dict comprehension that inverts the content-id map,
    as the sequence of its insertions [att_id: cid]. A list or a dict cannot
    be a key. *)
Fixpoint invert (entries : list (string * json)) : result (list (json * string)) :=
  match entries with
  | [] => Return []
  | (cid, att_id) :: rest =>
      if hashable att_id
      then inverted <- invert rest ;; Return ((att_id, cid) :: inverted)
      else raise_ TypeError
  end.

(** [att_cids.get(att_id, None)] for a [str]: the last insertion under a key
    equal to it counts, and only a [str] key is equal to a [str]. *)
Definition att_cids_get (att_cids : list (json * string)) (att_id : string)
    : option string :=
  match rev (filter (fun kc => eq_str (fst kc) att_id) att_cids) with
  | (_, cid) :: _ => Some cid
  | [] => None
  end.

Section View.

Context {L : Library} {C : Collaborators}.

(** Lines 185-200. *)
Definition attachments_of (request : HttpRequest)
    : result (option (list Attachment)) :=
  try_
    (count <- getitem (POST request) "attachment-count" ;; int count)
    [([KeyError; TypeError], Return None)]
    (fun attachment_count =>
       let att_ids := att_ids_of attachment_count in
       cid_map <- MailgunTrackingWebhookView.loads
                    (get_str (POST request) "content-id-map" "{}") ;;
       entries <- items cid_map ;;
       att_cids <- invert entries ;;
       attachments <-
         for_each
           (fun att_id =>
              file <- getitem (FILES request) att_id ;;
              Return (construct_attachment_from_uploaded_file file
                        (att_cids_get att_cids att_id)))
           att_ids ;;
       Return (Some attachments)).

Definition message_from_mailgun_parsed (self : MailgunBaseWebhookView.t)
    (request : HttpRequest) : result AnymailInboundMessage :=
  attachments <- attachments_of request ;;
  hdrs <- getitem (POST request) "message-headers" ;;
  hdrs <- MailgunTrackingWebhookView.loads hdrs ;;
  construct hdrs
    (get (POST request) "body-plain" None)
    (get (POST request) "body-html" None)
    attachments.

(** Lines 163-166. *)
Definition with_envelope (m : AnymailInboundMessage) (post : QueryDict)
    : AnymailInboundMessage :=
  {| parts := parts m;
     envelope_sender := get post "sender" None;
     envelope_recipient := get post "recipient" None;
     stripped_text := get post "stripped-text" None;
     stripped_html := get post "stripped-html" None;
     spam_detected := spam_detected m;
     spam_score := spam_score m |}.

(** Line 168. *)
Definition with_spam_detected (m : AnymailInboundMessage) : AnymailInboundMessage :=
  {| parts := parts m;
     envelope_sender := envelope_sender m;
     envelope_recipient := envelope_recipient m;
     stripped_text := stripped_text m;
     stripped_html := stripped_html m;
     spam_detected :=
       Some (String.eqb (lower (header_get m "X-Mailgun-Sflag" "No")) "yes");
     spam_score := spam_score m |}.

(** [float(v)] for a header value: [None] is a [TypeError]. *)
Definition float_of (v : option string) : result float :=
  match v with
  | None => raise_ TypeError
  | Some s =>
      match float_of_str s with
      | Some x => Return x
      | None => raise_ ValueError
      end
  end.

(** Lines 169-172. *)
Definition with_spam_score (m : AnymailInboundMessage)
    : result AnymailInboundMessage :=
  try_
    (float_of (header m "X-Mailgun-Sscore"))
    [([TypeError; ValueError], Return m)]
    (fun score =>
       Return
         {| parts := parts m;
            envelope_sender := envelope_sender m;
            envelope_recipient := envelope_recipient m;
            stripped_text := stripped_text m;
            stripped_html := stripped_html m;
            spam_detected := spam_detected m;
            spam_score := Some score |}).

(** Lines 156-161: the message, from the raw MIME field when there is one
    and from the parsed fields otherwise. *)
Definition message_of (self : MailgunBaseWebhookView.t) (request : HttpRequest)
    : result AnymailInboundMessage :=
  if contains (POST request) "body-mime"
  then body <- getitem (POST request) "body-mime" ;; parse_raw_mime body
  else message_from_mailgun_parsed self request.

Definition esp_to_anymail_event (self : MailgunBaseWebhookView.t)
    (request : HttpRequest) : result AnymailInboundEvent :=
  let esp_event := request in
  message <- message_of self request ;;
  let message := with_envelope message (POST request) in
  let message := with_spam_detected message in
  message <- with_spam_score message ;;
  seconds <- getitem (POST request) "timestamp" ;;
  seconds <- int seconds ;;
  timestamp <- fromtimestamp_utc seconds ;;
  Return
    {| inbound_event_type := EventType.INBOUND;
       inbound_timestamp := timestamp;
       inbound_event_id := get (POST request) "token" None;
       inbound_esp_event := esp_event;
       message := message |}.

Definition parse_events (self : MailgunBaseWebhookView.t) (request : HttpRequest)
    : result (list AnymailInboundEvent) :=
  e <- esp_to_anymail_event self request ;; Return [e].

End View.

End MailgunInboundWebhookView.

(** ** A library to run the views on

    An instance of [Library] for the examples: SHA-256 and HMAC as FIPS 180-4
    and RFC 2104 define them, a JSON reader, a reader of plain decimals for
    [float], and the timestamps of the years 1 to 9999. *)

Module Sha256.

Local Open Scope Z_scope.

Definition w32 (x : Z) : Z := Z.land x 4294967295.

Definition rotr (n x : Z) : Z :=
  Z.lor (Z.shiftr x n) (w32 (Z.shiftl x (32 - n))).

Definition ch (x y z : Z) : Z :=
  Z.lxor (Z.land x y) (Z.land (Z.lxor x 4294967295) z).

Definition maj (x y z : Z) : Z :=
  Z.lxor (Z.lxor (Z.land x y) (Z.land x z)) (Z.land y z).

Definition big_sigma0 (x : Z) : Z :=
  Z.lxor (Z.lxor (rotr 2 x) (rotr 13 x)) (rotr 22 x).

Definition big_sigma1 (x : Z) : Z :=
  Z.lxor (Z.lxor (rotr 6 x) (rotr 11 x)) (rotr 25 x).

Definition small_sigma0 (x : Z) : Z :=
  Z.lxor (Z.lxor (rotr 7 x) (rotr 18 x)) (Z.shiftr x 3).

Definition small_sigma1 (x : Z) : Z :=
  Z.lxor (Z.lxor (rotr 17 x) (rotr 19 x)) (Z.shiftr x 10).

Definition initial_hash : list Z :=
  [ 1779033703; 3144134277; 1013904242; 2773480762;
    1359893119; 2600822924; 528734635; 1541459225 ].

Definition round_constants : list Z :=
  [ 1116352408; 1899447441; 3049323471; 3921009573; 961987163; 1508970993;
    2453635748; 2870763221; 3624381080; 310598401; 607225278; 1426881987;
    1925078388; 2162078206; 2614888103; 3248222580; 3835390401; 4022224774;
    264347078; 604807628; 770255983; 1249150122; 1555081692; 1996064986;
    2554220882; 2821834349; 2952996808; 3210313671; 3336571891; 3584528711;
    113926993; 338241895; 666307205; 773529912; 1294757372; 1396182291;
    1695183700; 1986661051; 2177026350; 2456956037; 2730485921; 2820302411;
    3259730800; 3345764771; 3516065817; 3600352804; 4094571909; 275423344;
    430227734; 506948616; 659060556; 883997877; 958139571; 1322822218;
    1537002063; 1747873779; 1955562222; 2024104815; 2227730452; 2361852424;
    2428436474; 2756734187; 3204031479; 3329325298 ].

(** The message, then the byte 128, zeros up to 56 modulo 64, and the length
    in bits on 8 bytes. *)
Definition pad (msg : list Z) : list Z :=
  let len := Z.of_nat (List.length msg) in
  let zeros := Z.to_nat ((55 - len) mod 64) in
  msg ++ [128] ++ repeat 0 zeros ++
  map (fun i => Z.land (Z.shiftr (8 * len) (8 * (7 - Z.of_nat i))) 255) (seq 0 8).

(** Big-endian words of a list of bytes. *)
Fixpoint words (bytes : list Z) (n : nat) : list Z :=
  match n, bytes with
  | S n', a :: b :: c :: d :: rest =>
      (Z.shiftl a 24 + Z.shiftl b 16 + Z.shiftl c 8 + d) :: words rest n'
  | _, _ => []
  end.

(** The message schedule, latest word first. *)
Fixpoint extend (n : nat) (w : list Z) : list Z :=
  match n with
  | O => w
  | S n' =>
      extend n'
        (w32 (small_sigma1 (nth 1 w 0) + nth 6 w 0 +
              small_sigma0 (nth 14 w 0) + nth 15 w 0) :: w)
  end.

Definition schedule (block : list Z) : list Z :=
  rev (extend 48 (rev (words block 16))).

Definition round (s : list Z) (kw : Z * Z) : list Z :=
  match s with
  | [a; b; c; d; e; f; g; h] =>
      let t1 := h + big_sigma1 e + ch e f g + fst kw + snd kw in
      let t2 := big_sigma0 a + maj a b c in
      [w32 (t1 + t2); a; b; c; w32 (d + t1); e; f; g]
  | _ => s
  end.

Definition compress (h : list Z) (block : list Z) : list Z :=
  map (fun xy => w32 (fst xy + snd xy))
    (combine h (fold_left round (combine round_constants (schedule block)) h)).

Fixpoint blocks (n : nat) (h : list Z) (bytes : list Z) : list Z :=
  match n with
  | O => h
  | S n' => blocks n' (compress h (firstn 64 bytes)) (skipn 64 bytes)
  end.

Definition word_bytes (x : Z) : list Z :=
  [ Z.land (Z.shiftr x 24) 255; Z.land (Z.shiftr x 16) 255;
    Z.land (Z.shiftr x 8) 255; Z.land x 255 ].

(** [hashlib.sha256(msg).digest()], on bytes as numbers. *)
Definition digest (msg : list Z) : list Z :=
  let padded := pad msg in
  flat_map word_bytes
    (blocks (Nat.div (List.length padded) 64) initial_hash padded).

Definition xor_pad (key : list Z) (p : Z) : list Z :=
  map (fun k => Z.lxor k p) (key ++ repeat 0 (64 - List.length key)).

(** [hmac.new(key, msg, hashlib.sha256).digest()]. *)
Definition hmac (key msg : list Z) : list Z :=
  let key := if (64 <? Z.of_nat (List.length key)) then digest key else key in
  digest (xor_pad key 92 ++ digest (xor_pad key 54 ++ msg)).

Definition hex_digit (n : Z) : ascii :=
  ascii_of_N (Z.to_N (if n <? 10 then 48 + n else 87 + n)).

Definition hex (bytes : list Z) : string :=
  string_of_list_ascii
    (flat_map (fun b => [hex_digit (Z.shiftr b 4); hex_digit (Z.land b 15)]) bytes).

Definition bytes_of (s : string) : list Z :=
  map (fun c => Z.of_N (N_of_ascii c)) (list_ascii_of_string s).

Definition hexdigest (msg : string) : string := hex (digest (bytes_of msg)).

Definition hmac_hexdigest (key msg : string) : string :=
  hex (hmac (bytes_of key) (bytes_of msg)).

End Sha256.

Module JsonText.

Import Json.

Definition quote : ascii := ascii_of_N 34.
Definition backslash : ascii := ascii_of_N 92.

Definition is_ws (c : ascii) : bool :=
  match N_of_ascii c with
  | 9 | 10 | 13 | 32 => true
  | _ => false
  end%N.

Fixpoint skip_ws (l : list ascii) : list ascii :=
  match l with
  | c :: r => if is_ws c then skip_ws r else l
  | [] => []
  end.

Fixpoint expect (word l : list ascii) : option (list ascii) :=
  match word, l with
  | [], _ => Some l
  | w :: word', c :: r => if Ascii.eqb w c then expect word' r else None
  | _ :: _, [] => None
  end.

Definition hex_val (c : ascii) : option N :=
  let n := N_of_ascii c in
  if ((48 <=? n) && (n <=? 57))%N then Some (n - 48)%N
  else if ((97 <=? n) && (n <=? 102))%N then Some (n - 87)%N
  else if ((65 <=? n) && (n <=? 70))%N then Some (n - 55)%N
  else None.

Definition escape (c : ascii) : option ascii :=
  if Ascii.eqb c quote then Some quote
  else if Ascii.eqb c backslash then Some backslash
  else match c with
       | "/" => Some "/"
       | "b" => Some (ascii_of_N 8)
       | "f" => Some (ascii_of_N 12)
       | "n" => Some (ascii_of_N 10)
       | "r" => Some (ascii_of_N 13)
       | "t" => Some (ascii_of_N 9)
       | _ => None
       end%char.

(** A [\uXXXX] escape, for the code points a [string] character holds. *)
Definition unicode_escape (a b c d : ascii) : option ascii :=
  match hex_val a, hex_val b, hex_val c, hex_val d with
  | Some 0%N, Some 0%N, Some h, Some l => Some (ascii_of_N (16 * h + l))
  | _, _, _, _ => None
  end.

(** The characters of a string after its opening quote, up to the closing
    one; [acc] holds those read, latest first. *)
Fixpoint string_body (l acc : list ascii) : option (string * list ascii) :=
  match l with
  | [] => None
  | c :: r =>
      if Ascii.eqb c quote then Some (string_of_list_ascii (rev acc), r)
      else if Ascii.eqb c backslash then
        match r with
        | "u"%char :: h1 :: h2 :: h3 :: h4 :: r' =>
            match unicode_escape h1 h2 h3 h4 with
            | Some x => string_body r' (x :: acc)
            | None => None
            end
        | e :: r' =>
            match escape e with
            | Some x => string_body r' (x :: acc)
            | None => None
            end
        | [] => None
        end
      else if (N_of_ascii c <? 32)%N then None
      else string_body r (c :: acc)
  end.

Fixpoint span_digits (l : list ascii) : list ascii * list ascii :=
  match l with
  | c :: r =>
      match Py.digit_of c with
      | Some _ => let (ds, rest) := span_digits r in (c :: ds, rest)
      | None => ([], l)
      end
  | [] => ([], [])
  end.

Definition decimal (ds : list ascii) : Z :=
  fold_left (fun acc c =>
    match Py.digit_of c with
    | Some d => (10 * acc + d)%Z
    | None => acc
    end) ds 0%Z.

(** A dot and one digit or more, if they are there. *)
Definition fraction (l : list ascii) : list ascii * list ascii :=
  match l with
  | "."%char :: r =>
      match span_digits r with
      | ([], _) => ([], l)
      | (ds, rest) => ("."%char :: ds, rest)
      end
  | _ => ([], l)
  end.

(** [e] or [E], an optional sign and one digit or more, if they are there. *)
Definition exponent (l : list ascii) : list ascii * list ascii :=
  match l with
  | e :: r =>
      if Ascii.eqb e "e" || Ascii.eqb e "E" then
        let (sign, r') :=
          match r with
          | s :: r' =>
              if Ascii.eqb s "+" || Ascii.eqb s "-" then ([s], r') else ([], r)
          | [] => ([], r)
          end in
        match span_digits r' with
        | ([], _) => ([], l)
        | (ds, rest) => (e :: sign ++ ds, rest)
        end
      else ([], l)
  | [] => ([], l)
  end.

(** An optional minus sign, then 0 or digits that do not start with 0, then
    an optional fraction and an optional exponent: an [int] without fraction
    and exponent, a [float] otherwise. *)
Definition number (l : list ascii) : option (json * list ascii) :=
  let (sign, l1) :=
    match l with
    | "-"%char :: r => (["-"%char], r)
    | _ => ([], l)
    end in
  let (ds, l2) := span_digits l1 in
  let (int_part, l3) :=
    match ds with
    | "0"%char :: more => (["0"%char], more ++ l2)
    | _ => (ds, l2)
    end in
  match int_part with
  | [] => None
  | _ =>
      let (frac, l4) := fraction l3 in
      let (exp, l5) := exponent l4 in
      match frac, exp with
      | [], [] =>
          Some (JInt (match sign with
                      | [] => decimal int_part
                      | _ => - decimal int_part
                      end)%Z, l5)
      | _, _ =>
          Some (JFloat (string_of_list_ascii (sign ++ int_part ++ frac ++ exp)), l5)
      end
  end.

Fixpoint value (fuel : nat) (l : list ascii) : option (json * list ascii) :=
  match fuel with
  | O => None
  | S fuel' =>
      match skip_ws l with
      | "n"%char :: _ =>
          option_map (pair JNull) (expect (Py.chars "null") (skip_ws l))
      | "t"%char :: _ =>
          option_map (pair (JBool true)) (expect (Py.chars "true") (skip_ws l))
      | "f"%char :: _ =>
          option_map (pair (JBool false)) (expect (Py.chars "false") (skip_ws l))
      | "["%char :: r =>
          match skip_ws r with
          | "]"%char :: r' => Some (JList [], r')
          | r' => elements fuel' r' []
          end
      | "{"%char :: r =>
          match skip_ws r with
          | "}"%char :: r' => Some (JDict [], r')
          | r' => members fuel' r' []
          end
      | c :: r =>
          if Ascii.eqb c quote
          then match string_body r [] with
               | Some (s, r') => Some (JStr s, r')
               | None => None
               end
          else number (c :: r)
      | [] => None
      end
  end
with elements (fuel : nat) (l : list ascii) (acc : list json)
    : option (json * list ascii) :=
  match fuel with
  | O => None
  | S fuel' =>
      match value fuel' l with
      | Some (v, r) =>
          match skip_ws r with
          | ","%char :: r' => elements fuel' r' (v :: acc)
          | "]"%char :: r' => Some (JList (rev (v :: acc)), r')
          | _ => None
          end
      | None => None
      end
  end
with members (fuel : nat) (l : list ascii) (acc : dict)
    : option (json * list ascii) :=
  match fuel with
  | O => None
  | S fuel' =>
      match skip_ws l with
      | c :: r =>
          if Ascii.eqb c quote
          then match string_body r [] with
               | Some (k, r1) =>
                   match skip_ws r1 with
                   | ":"%char :: r2 =>
                       match value fuel' r2 with
                       | Some (v, r3) =>
                           match skip_ws r3 with
                           | ","%char :: r4 => members fuel' r4 (dict_set acc k v)
                           | "}"%char :: r4 => Some (JDict (dict_set acc k v), r4)
                           | _ => None
                           end
                       | None => None
                       end
                   | _ => None
                   end
               | None => None
               end
          else None
      | [] => None
      end
  end.

(** [json.loads(s)] on the JSON texts without [NaN], [Infinity] and escapes
    of code points from 256 on. *)
Definition loads (s : string) : option json :=
  let l := Py.chars s in
  match value (2 * List.length l + 2) l with
  | Some (v, rest) =>
      match skip_ws rest with
      | [] => Some v
      | _ => None
      end
  | None => None
  end.

(** The text with every apostrophe turned into a double quote, to write JSON
    texts down. *)
Fixpoint q (s : string) : string :=
  match s with
  | EmptyString => EmptyString
  | String c r => String (if Ascii.eqb c "'" then quote else c) (q r)
  end.

End JsonText.

Module Sample.

Import Py Json Django Anymail.

(** [float(s)] on plain decimals: blanks around, an optional sign, digits
    with at most one dot among them. The value is kept as a fraction. *)
Definition decimal_float (s : string) : option Q :=
  let l := strip (chars s) in
  let (negative, l1) :=
    match l with
    | "-"%char :: r => (true, r)
    | "+"%char :: r => (false, r)
    | _ => (false, l)
    end in
  let (int_part, l2) := JsonText.span_digits l1 in
  let (frac_part, l3) :=
    match l2 with
    | "."%char :: r => JsonText.span_digits r
    | _ => ([], l2)
    end in
  match l3, int_part ++ frac_part with
  | [], _ :: _ =>
      let m := JsonText.decimal (int_part ++ frac_part) in
      Some (Qred (Qmake (if negative then - m else m)%Z
                    (Z.to_pos (10 ^ Z.of_nat (List.length frac_part)))))
  | _, _ => None
  end.

(** [datetime.fromtimestamp(n, tz=utc)] where a [time_t] has 64 bits: the
    datetime is kept as its timestamp. *)
Definition fromtimestamp_64 (n : Z) : result Z :=
  if ((n <? - 2 ^ 63) || (2 ^ 63 <=? n))%Z then raise_ OverflowError
  else if ((n <? -62135596800) || (253402300799 <? n))%Z then raise_ ValueError
  else Return n.

Definition library : Library :=
  {| datetime := Z;
     float := Q;
     fromtimestamp_utc := fromtimestamp_64;
     float_of_str := decimal_float;
     json_loads_str := JsonText.loads;
     hmac_sha256_hexdigest := Sha256.hmac_hexdigest |}.

(** A message of header lines [Name: value], an empty line and a plain-text
    body, read without the rest of MIME. *)
Definition header_line (line : string) : option (string * string) :=
  match split ":" line with
  | n :: v :: rest =>
      Some (n, string_of_list_ascii
                 (lstrip (chars (String.concat ":" (v :: rest)))))
  | _ => None
  end.

Fixpoint header_lines (lines : list string)
    : list (string * string) * list string :=
  match lines with
  | [] => ([], [])
  | line :: rest =>
      match header_line line with
      | Some h => let (hs, body) := header_lines rest in (h :: hs, body)
      | None => ([], rest)
      end
  end.

Definition parse_plain (s : string) : result MimeParts :=
  let (hs, body) := header_lines (split (ascii_of_N 10) s) in
  Return {| headers := hs;
            text := Some (String.concat (String (ascii_of_N 10) EmptyString) body);
            html := None;
            attachments := [] |}.

(** Basic auth is not configured; arguments the spec does not speak of are
    refused. *)
Definition collaborators : Collaborators :=
  {| base_validate_request := fun _ => Return tt;
     parse_mime := parse_plain;
     combine_other := fun _ => raise_ TypeError;
     construct_other := fun _ _ _ _ => raise_ TypeError |}.

(** Basic auth is configured, and the request carries no credentials. *)
Definition collaborators_with_basic_auth : Collaborators :=
  {| base_validate_request :=
       fun _ => Raise (AnymailWebhookValidationFailure
                         "Missing or invalid basic auth in Anymail webhook");
     parse_mime := parse_plain;
     combine_other := fun _ => raise_ TypeError;
     construct_other := fun _ _ _ _ => raise_ TypeError |}.

Definition view : MailgunBaseWebhookView.t :=
  {| MailgunBaseWebhookView.api_key := "key-0123456789abcdef" |}.

End Sample.

(** ** Readings of the spec's words *)

Module Reading.

Import Json.

(** "Later entries override earlier keys on conflict": among dictionaries in
    order, the value of a key is the one the last dictionary that has the key
    gives. *)
Definition last_binding (ds : list dict) (k : string) : option json :=
  fold_left
    (fun found d =>
       match dict_get d k with
       | Some v => Some v
       | None => found
       end)
    ds None.

(** "The key of the content-id-map entry whose value names that field, or
    unset when no entry maps to it"; when several entries name the field,
    the last one. *)
Definition content_id_for (entries : list (string * json)) (field : string)
    (cid : option string) : Prop :=
  match cid with
  | Some c =>
      exists before after,
        entries = before ++ (c, JStr field) :: after /\
        forall c', ~ In (c', JStr field) after
  | None => forall c, ~ In (c, JStr field) entries
  end.

(** An entry of the content-id map, turned around. *)
Definition swap (entry : string * json) : json * string :=
  (snd entry, fst entry).

End Reading.

(** ** Requests for the examples *)

Module Cases.

Import Django.

Definition tracking (fields : QueryDict) : QueryDict :=
  [("event", "bounced"); ("timestamp", "1500000000")] ++ fields.

(** A message id that opens a bracket and does not close it. *)
Definition half_bracketed : QueryDict := tracking [("Message-Id", "<abc")].

(** An empty [Message-Id] beside a [message-id]. *)
Definition empty_first_spelling : QueryDict :=
  tracking [("Message-Id", ""); ("message-id", "abc@example.com")].

Definition bare_id : QueryDict := tracking [("message-id", "abc@example.com")].

(** A code that is neither a number nor a dotted status. *)
Definition illegal_code : QueryDict := tracking [("code", "abc")].

Definition posted (fields : QueryDict) : HttpRequest :=
  {| POST := fields; FILES := [] |}.

(** The HMAC-SHA256 of [1500000000tok] under the key of [Sample.view]. *)
Definition signature : string :=
  "bf7c10e91192522a13a1bfad655d30274bbab6dfa689c6c3bcf287366ac51a3f".

Definition signed : HttpRequest :=
  posted [("timestamp", "1500000000"); ("token", "tok");
          ("signature", signature)].

(** The signature with its last bit flipped. *)
Definition tampered : HttpRequest :=
  posted [("timestamp", "1500000000"); ("token", "tok");
          ("signature",
           "bf7c10e91192522a13a1bfad655d30274bbab6dfa689c6c3bcf287366ac51a3e")].

Definition unsigned : HttpRequest :=
  posted [("timestamp", "1500000000"); ("token", "tok")].

(** A token with the code point 233 in it, under any signature. *)
Definition non_ascii_token (signature : string) : HttpRequest :=
  posted [("timestamp", "1500000000");
          ("token", String (ascii_of_N 233) "tok");
          ("signature", signature)].

(** Headers that are not JSON. *)
Definition malformed_headers : QueryDict :=
  tracking [("message-headers", "[[")].

Definition with_headers (text : string) : QueryDict :=
  tracking [("message-headers", JsonText.q text)].

Definition two_variables : QueryDict :=
  with_headers
    "[['X-Mailgun-Variables', '{\'a\': 1}'], ['Subject', 'hi'], ['X-Mailgun-Variables', '{\'b\': 2}']]".

Definition overriding_variables : QueryDict :=
  with_headers
    "[['X-Mailgun-Variables', '{\'a\': 1, \'b\': 2}'], ['X-Mailgun-Variables', '{\'b\': 3}']]".

Definition file (name content : string) : UploadedFile :=
  {| Django.name := name;
     Django.content_type := "application/octet-stream";
     Django.content := content |}.

(** A fully-parsed inbound message with two attachments declared, three
    files posted, a content id for the second file, and a spam score. *)
Definition inbound_parsed : HttpRequest :=
  {| POST :=
       [("timestamp", "1500000000"); ("token", "tok");
        ("attachment-count", "2");
        ("content-id-map", JsonText.q "{'<cid1>': 'attachment-2'}");
        ("message-headers",
         JsonText.q "[['Subject', 'hi'], ['X-Mailgun-Sscore', '5.5']]");
        ("body-plain", "hello")];
     FILES :=
       [("attachment-1", file "a.txt" "AAA");
        ("attachment-2", file "b.png" "BBB");
        ("attachment-3", file "c.bin" "CCC")] |}.

(** The same message with a spam score that is not a number, and without
    one. *)
Definition inbound_with_headers (headers : string) : HttpRequest :=
  posted [("timestamp", "1500000000");
          ("message-headers", JsonText.q headers)].

Definition inbound_bad_score : HttpRequest :=
  inbound_with_headers "[['X-Mailgun-Sscore', 'high']]".

Definition inbound_no_score : HttpRequest :=
  inbound_with_headers "[['Subject', 'hi']]".

(** A raw-MIME inbound message with a spam score. *)
Definition inbound_raw : HttpRequest :=
  posted [("timestamp", "1500000000");
          ("body-mime",
           "x-mailgun-sscore: 5.5" ++ String (ascii_of_N 10)
             ("Subject: hi" ++ String (ascii_of_N 10)
                (String (ascii_of_N 10) "hello")))%string].

End Cases.

(** ** More requests, for the properties beyond the claims *)

Module Payloads.

Import Django.

(** A click with tags under both spellings and both response fields. *)
Definition clicked : QueryDict :=
  [("event", "clicked"); ("timestamp", "1500000000");
   ("tag", "news"); ("X-Mailgun-Tag", "old"); ("tag", "promo");
   ("notification", "queued"); ("error", "550 no such user");
   ("url", "https://example.com/")].

(** Tags under the second spelling only, and a notification without error. *)
Definition tagged_second : QueryDict :=
  [("event", "Delivered"); ("timestamp", "1500000000");
   ("X-Mailgun-Tag", "old"); ("notification", "queued")].

(** A signed request whose timestamp has lost its last digit to the token. *)
Definition shifted : HttpRequest :=
  Cases.posted [("timestamp", "150000000"); ("token", "0tok");
                ("signature", Cases.signature)].

(** Three attachments declared, with the files to go with them. *)
Definition three_files : HttpRequest :=
  {| POST :=
       [("timestamp", "1500000000"); ("attachment-count", "3");
        ("content-id-map",
         JsonText.q "{'<a>': 'attachment-3', '<b>': 'attachment-1', '<c>': 'attachment-3'}");
        ("message-headers", JsonText.q "[['X-Mailgun-Sflag', 'Yes']]")];
     FILES :=
       [("attachment-1", Cases.file "a.txt" "AAA");
        ("attachment-2", Cases.file "b.png" "BBB");
        ("attachment-3", Cases.file "c.bin" "CCC")] |}.

(** No attachment count, a content-id map that is not JSON and a file. *)
Definition no_count : HttpRequest :=
  {| POST :=
       [("timestamp", "1500000000"); ("content-id-map", "{");
        ("message-headers", JsonText.q "[['Subject', 'hi']]");
        ("body-plain", "hello"); ("sender", "a@example.com")];
     FILES := [("attachment-1", Cases.file "a.txt" "AAA")] |}.

(** Raw MIME beside parsed fields that could not be read. *)
Definition raw_beside_parsed : HttpRequest :=
  {| POST :=
       [("timestamp", "1500000000"); ("attachment-count", "many");
        ("message-headers", "[[");
        ("sender", "a@example.com"); ("recipient", "b@example.com");
        ("body-mime",
         "X-Mailgun-Sflag: YES" ++ String (ascii_of_N 10)
           (String (ascii_of_N 10) "hello"))%string];
     FILES := [] |}.

(** Parsed fields without headers. *)
Definition headless : HttpRequest :=
  Cases.posted [("timestamp", "1500000000"); ("body-plain", "hello")].

End Payloads.

(** * Properties *)

(** ** The result monad and the request dictionaries *)

Module PyFacts.

Import Py.

Lemma bind_Return_inv {A B : Type} (m : result A) (k : A -> result B) (b : B) :
  bind m k = Return b -> exists a, m = Return a /\ k a = Return b.
Proof.
  destruct m as [a | e]; simpl; intros H.
  - exists a. split; [reflexivity | exact H].
  - discriminate H.
Qed.

Lemma split_cons (sep : ascii) (s : string) :
  exists h t, split sep s = h :: t.
Proof.
  destruct s as [| c r]; simpl.
  - eauto.
  - destruct (Ascii.eqb c sep); [eauto |].
    destruct (split sep r); eauto.
Qed.

(** The first piece of [s.split(sep)] when [s] is [seg], the separator and a
    rest, and the separator is not in [seg]. *)
Lemma split_first (sep : ascii) (seg rest : string) :
  ~ In sep (chars seg) ->
  exists t, split sep (seg ++ String sep rest) = seg :: t.
Proof.
  induction seg as [| c seg IH]; simpl; intros Hnot.
  - rewrite Ascii.eqb_refl. eauto.
  - destruct (Ascii.eqb_spec c sep) as [-> | Hc].
    + exfalso. apply Hnot. left. reflexivity.
    + destruct IH as [t Ht].
      * intros Hin. apply Hnot. right. exact Hin.
      * rewrite Ht. eauto.
Qed.

(** A string without the separator is the only piece. *)
Lemma split_whole (sep : ascii) (s : string) :
  ~ In sep (chars s) -> split sep s = [s].
Proof.
  induction s as [| c s IH]; simpl; intros Hnot; [reflexivity |].
  destruct (Ascii.eqb_spec c sep) as [-> | Hc].
  - exfalso. apply Hnot. left. reflexivity.
  - rewrite IH; [reflexivity |]. intros Hin. apply Hnot. right. exact Hin.
Qed.

Lemma chars_app (s t : string) : chars (s ++ t) = chars s ++ chars t.
Proof.
  induction s as [| c s IH]; simpl; [reflexivity |].
  unfold chars in *. simpl. rewrite IH. reflexivity.
Qed.

(** *** [int] *)

Lemma int_cases (s : string) :
  (exists n, int s = Return n) \/ int s = raise_ ValueError.
Proof.
  unfold int. destruct (int_literal (strip (chars s))); eauto.
Qed.

Lemma In_lstrip (c : ascii) (l : list ascii) :
  is_space c = false -> In c l -> In c (lstrip l).
Proof.
  intros Hc. induction l as [| a l IH]; simpl; [tauto |].
  intros [-> | Hin].
  - rewrite Hc. left. reflexivity.
  - destruct (is_space a); [apply IH; exact Hin | right; exact Hin].
Qed.

Lemma In_strip (c : ascii) (l : list ascii) :
  is_space c = false -> In c l -> In c (strip l).
Proof.
  intros Hc Hin. unfold strip.
  apply in_rev. rewrite rev_involutive.
  apply In_lstrip; [exact Hc |].
  apply -> in_rev. apply In_lstrip; assumption.
Qed.

Lemma digits_dot (l : list ascii) :
  In "."%char l -> forall acc b, digits acc b l = None.
Proof.
  induction l as [| c l IH]; simpl; [tauto |].
  intros [-> | Hin] acc b.
  - reflexivity.
  - destruct (digit_of c); [apply IH; exact Hin |].
    destruct (Ascii.eqb c "_" && b); [apply IH; exact Hin | reflexivity].
Qed.

(** No text with a dot in it is an [int]. *)
Lemma int_dotted (s : string) :
  In "."%char (chars s) -> int s = raise_ ValueError.
Proof.
  intros Hin. unfold int.
  assert (Hs : In "."%char (strip (chars s))) by (apply In_strip; [reflexivity | exact Hin]).
  assert (Hnone : int_literal (strip (chars s)) = None).
  { unfold int_literal.
    destruct (strip (chars s)) as [| c r] eqn:E; [destruct Hs |].
    destruct Hs as [-> | Hr].
    - apply (digits_dot ("."%char :: r)). left. reflexivity.
    - assert (Hall : forall acc b, digits acc b (c :: r) = None)
        by (apply digits_dot; right; exact Hr).
      assert (Hrest : forall acc b, digits acc b r = None)
        by (apply digits_dot; exact Hr).
      destruct (Ascii.eqb_spec c "+") as [-> | Hplus]; [apply Hrest |].
      destruct (Ascii.eqb_spec c "-") as [-> | Hminus]; [rewrite Hrest; reflexivity |].
      destruct c as [[] [] [] [] [] [] [] []]; try apply Hall; congruence. }
  rewrite Hnone. reflexivity.
Qed.

End PyFacts.

Module DjangoFacts.

Import Py Django.

Lemma values_of_nil {V : Type} (q : list (string * V)) (key : string) :
  values_of q key = [] <-> contains q key = false.
Proof.
  unfold values_of, contains.
  induction q as [| [k v] q IH]; simpl; [tauto |].
  destruct (String.eqb k key); simpl; [split; discriminate | exact IH].
Qed.

(** [q[key]] returns a value when the key is there and raises [KeyError]
    when it is not. *)
Lemma getitem_cases {V : Type} (q : list (string * V)) (key : string) :
  (exists v, getitem q key = Return v /\ contains q key = true) \/
  (getitem q key = raise_ KeyError /\ contains q key = false).
Proof.
  unfold getitem.
  destruct (values_of q key) as [| v l] eqn:E.
  - right. split; [reflexivity | apply values_of_nil; exact E].
  - left. destruct (rev (v :: l)) as [| w r] eqn:R.
    + apply (f_equal (@rev V)) in R. rewrite rev_involutive in R. discriminate R.
    + exists w. split; [reflexivity |].
      destruct (contains q key) eqn:Hc; [reflexivity |].
      apply values_of_nil in Hc. congruence.
Qed.

Lemma getitem_absent {V : Type} (q : list (string * V)) (key : string) :
  contains q key = false -> getitem q key = raise_ KeyError.
Proof.
  intros Hc. destruct (getitem_cases q key) as [(v & _ & H) | [H _]]; congruence.
Qed.

Lemma getitem_present {V : Type} (q : list (string * V)) (key : string) (v : V) :
  getitem q key = Return v -> contains q key = true.
Proof.
  intros Hg. destruct (getitem_cases q key) as [(w & _ & H) | [H _]]; [exact H |].
  rewrite Hg in H. discriminate H.
Qed.

Lemma get_absent (q : QueryDict) (key : string) (default : option string) :
  contains q key = false -> get q key default = default.
Proof.
  intros Hc. unfold get. rewrite (getitem_absent _ _ Hc). reflexivity.
Qed.

Lemma get_present (q : QueryDict) (key : string) (default : option string) (v : string) :
  getitem q key = Return v -> get q key default = Some v.
Proof.
  intros Hg. unfold get. rewrite Hg. reflexivity.
Qed.

End DjangoFacts.

(** ** The tracking mapper *)

Module TrackingFacts.

Import Py Json Django Anymail MailgunTrackingWebhookView PyFacts DjangoFacts.

Lemma reject_reason_absent (e : QueryDict) :
  contains e "code" = false -> reject_reason_of e = Return None.
Proof.
  intros Hc. unfold reject_reason_of.
  rewrite (getitem_absent _ _ Hc). reflexivity.
Qed.

Lemma reject_reason_int (e : QueryDict) (code : string) (n : Z) :
  getitem e "code" = Return code ->
  int code = Return n ->
  reject_reason_of e =
  Return (Some (table_get Z.eqb reject_reasons n
                  (if (400 <=? n)%Z && (n <? 600)%Z
                   then RejectReason.BOUNCED else RejectReason.OTHER))).
Proof.
  intros Hg Hi. unfold reject_reason_of.
  rewrite Hg. cbn [bind]. rewrite Hi. reflexivity.
Qed.

Lemma reject_reason_not_int (e : QueryDict) (code : string) :
  getitem e "code" = Return code ->
  int code = raise_ ValueError ->
  reject_reason_of e =
  Return (Some (if existsb (String.eqb (hd EmptyString (split "." code))) ["4"; "5"]
                then RejectReason.BOUNCED else RejectReason.OTHER)).
Proof.
  intros Hg Hi. unfold reject_reason_of.
  rewrite Hg. cbn [bind]. rewrite Hi.
  destruct (split_cons "." code) as (h & t & Hs). rewrite Hs.
  reflexivity.
Qed.

(** The reject reason is computed without an error, whatever the payload. *)
Lemma reject_reason_total (e : QueryDict) :
  exists r, reject_reason_of e = Return r.
Proof.
  destruct (getitem_cases e "code") as [(code & Hg & _) | [_ Hc]].
  - destruct (int_cases code) as [[n Hi] | Hi].
    + rewrite (reject_reason_int e code n Hg Hi). eauto.
    + rewrite (reject_reason_not_int e code Hg Hi). eauto.
  - rewrite (reject_reason_absent e Hc). eauto.
Qed.

(** With a [code] in the payload the reject reason is never left unset: the
    handler for an illegal status code is not reached. *)
Lemma reject_reason_set (e : QueryDict) (code : string) :
  getitem e "code" = Return code ->
  exists r, reject_reason_of e = Return (Some r).
Proof.
  intros Hg. destruct (int_cases code) as [[n Hi] | Hi].
  - rewrite (reject_reason_int e code n Hg Hi). eauto.
  - rewrite (reject_reason_not_int e code Hg Hi). eauto.
Qed.

Lemma endswith_app (s : string) (c : ascii) :
  endswith_char (s ++ String c EmptyString) c = true.
Proof.
  induction s as [| a s IH]; simpl.
  - apply Ascii.eqb_refl.
  - destruct (s ++ String c EmptyString)%string eqn:E; [| exact IH].
    destruct s; discriminate E.
Qed.

Lemma endswith_cons (a : ascii) (s : string) (c : ascii) :
  s <> EmptyString -> endswith_char (String a s) c = endswith_char s c.
Proof.
  destruct s; [congruence | reflexivity].
Qed.

Lemma startswith_cons (c : ascii) (s : string) :
  startswith (String c s) (String c EmptyString) = true.
Proof.
  unfold startswith. simpl.
  destruct (ascii_dec c c) as [_ | Hne]; [| congruence].
  destruct s; reflexivity.
Qed.

Section Mapper.

Context {L : Library} {C : Collaborators}.

(** What a returned event holds. *)
Lemma tracking_event_inv (self : MailgunBaseWebhookView.t) (e : QueryDict)
    (ev : AnymailTrackingEvent) :
  esp_to_anymail_event self e = Return ev ->
  message_id ev = message_id_of e /\
  reject_reason_of e = Return (reject_reason ev) /\
  metadata_of e = Return (metadata ev) /\
  esp_event ev = e.
Proof.
  unfold esp_to_anymail_event. intros H.
  repeat match type of H with
         | bind ?m _ = Return _ =>
             let E := fresh "E" in
             destruct m eqn:E; cbn [bind] in H; [| discriminate H]
         end.
  inversion H; subst; clear H. cbn. auto.
Qed.

(** The mapper returns an event as soon as the event name, the timestamp and
    the metadata are read without an error. *)
Lemma tracking_event_returns (self : MailgunBaseWebhookView.t) (e : QueryDict)
    (event seconds : string) (n : Z) (ts : datetime) (md : json) :
  getitem e "event" = Return event ->
  getitem e "timestamp" = Return seconds ->
  int seconds = Return n ->
  fromtimestamp_utc n = Return ts ->
  metadata_of e = Return md ->
  exists ev, esp_to_anymail_event self e = Return ev.
Proof.
  intros He Ht Hi Hf Hm.
  destruct (reject_reason_total e) as [r Hr].
  unfold esp_to_anymail_event.
  rewrite He. cbn [bind]. rewrite Ht. cbn [bind]. rewrite Hi. cbn [bind].
  rewrite Hf. cbn [bind]. rewrite Hr. cbn [bind]. rewrite Hm. cbn [bind].
  eauto.
Qed.

(** C2. With a [code] in the payload, the reject reason follows the table:
    the integer codes 499, 605 and 607 give timed-out, bounced and spam; any
    other integer from 400 to 599 gives bounced and any other integer outside
    that range gives other; a dotted code gives bounced when its first
    segment is "4" or "5" and other when it is not. The event the mapper
    returns carries that reason. *)
Theorem reject_reason_table (self : MailgunBaseWebhookView.t) (e : QueryDict)
    (code : string) :
  getitem e "code" = Return code ->
  (int code = Return 499%Z ->
   reject_reason_of e = Return (Some RejectReason.TIMED_OUT)) /\
  (int code = Return 605%Z ->
   reject_reason_of e = Return (Some RejectReason.BOUNCED)) /\
  (int code = Return 607%Z ->
   reject_reason_of e = Return (Some RejectReason.SPAM)) /\
  (forall n, int code = Return n -> n <> 499%Z ->
   (400 <= n <= 599)%Z ->
   reject_reason_of e = Return (Some RejectReason.BOUNCED)) /\
  (forall n, int code = Return n -> n <> 605%Z -> n <> 607%Z ->
   (n < 400 \/ 599 < n)%Z ->
   reject_reason_of e = Return (Some RejectReason.OTHER)) /\
  (forall seg rest, code = (seg ++ "." ++ rest)%string ->
   ~ In "."%char (chars seg) ->
   reject_reason_of e =
   Return (Some (if String.eqb seg "4" || String.eqb seg "5"
                 then RejectReason.BOUNCED else RejectReason.OTHER))) /\
  (forall ev, esp_to_anymail_event self e = Return ev ->
   reject_reason_of e = Return (reject_reason ev)).
Proof.
  intros Hg.
  repeat split.
  - intros Hi. rewrite (reject_reason_int e code _ Hg Hi). reflexivity.
  - intros Hi. rewrite (reject_reason_int e code _ Hg Hi). reflexivity.
  - intros Hi. rewrite (reject_reason_int e code _ Hg Hi). reflexivity.
  - intros n Hi H499 Hrange. rewrite (reject_reason_int e code n Hg Hi).
    unfold reject_reasons, table_get.
    destruct (Z.eqb_spec 499 n) as [E | _]; [congruence |].
    destruct (Z.eqb_spec 605 n) as [E | _]; [lia |].
    destruct (Z.eqb_spec 607 n) as [E | _]; [lia |].
    replace (400 <=? n)%Z with true by (symmetry; apply Z.leb_le; lia).
    replace (n <? 600)%Z with true by (symmetry; apply Z.ltb_lt; lia).
    reflexivity.
  - intros n Hi H605 H607 Hrange. rewrite (reject_reason_int e code n Hg Hi).
    unfold reject_reasons, table_get.
    destruct (Z.eqb_spec 499 n) as [E | _]; [lia |].
    destruct (Z.eqb_spec 605 n) as [E | _]; [congruence |].
    destruct (Z.eqb_spec 607 n) as [E | _]; [congruence |].
    destruct (Z.leb_spec 400 n); destruct (Z.ltb_spec n 600);
      simpl; try reflexivity; lia.
  - intros seg rest -> Hseg.
    assert (Hi : int (seg ++ "." ++ rest) = raise_ ValueError).
    { apply int_dotted. rewrite chars_app. apply in_or_app. right. left. reflexivity. }
    rewrite (reject_reason_not_int e _ Hg Hi).
    destruct (split_first "." seg rest Hseg) as [t Ht].
    cbn [String.append] in Ht |- *. rewrite Ht. cbn [hd existsb].
    rewrite orb_false_r. reflexivity.
  - intros ev Hev. apply (tracking_event_inv self e ev Hev).
Qed.

(** C10. A payload with neither a [Message-Id] nor a [message-id] field gets
    no message id: the bracketing is skipped, the event the mapper returns
    has [message_id] unset, and the mapper returns an event whenever the
    event name, the timestamp and the metadata are read without an error. *)
Theorem message_id_absent (self : MailgunBaseWebhookView.t) (e : QueryDict) :
  contains e "Message-Id" = false ->
  contains e "message-id" = false ->
  message_id_of e = None /\
  (forall ev, esp_to_anymail_event self e = Return ev -> message_id ev = None) /\
  (forall event seconds n ts md,
     getitem e "event" = Return event ->
     getitem e "timestamp" = Return seconds ->
     int seconds = Return n ->
     fromtimestamp_utc n = Return ts ->
     metadata_of e = Return md ->
     exists ev, esp_to_anymail_event self e = Return ev /\ message_id ev = None).
Proof.
  intros H1 H2.
  assert (Hid : message_id_of e = None).
  { unfold message_id_of. rewrite (get_absent e "message-id" None H2).
    rewrite (get_absent e "Message-Id" None H1). reflexivity. }
  split; [exact Hid |]. split.
  - intros ev Hev.
    destruct (tracking_event_inv self e ev Hev) as [Hm _]. congruence.
  - intros event seconds n ts md He Ht Hi Hf Hmd.
    destruct (tracking_event_returns self e event seconds n ts md He Ht Hi Hf Hmd)
      as [ev Hev].
    exists ev. split; [exact Hev |].
    destruct (tracking_event_inv self e ev Hev) as [Hm _]. congruence.
Qed.

(** C6, as the code has it. When the message id the payload resolves to (the
    [Message-Id] field when it is there, the [message-id] field otherwise) is
    not empty, the event's message id starts with [<]; it ends with [>] when
    the id given did not start with [<] or ended with [>] itself. *)
Theorem message_id_bracketed (self : MailgunBaseWebhookView.t) (e : QueryDict)
    (ev : AnymailTrackingEvent) (id : string) :
  esp_to_anymail_event self e = Return ev ->
  get e "Message-Id" (get e "message-id" None) = Some id ->
  id <> EmptyString ->
  exists mid,
    message_id ev = Some mid /\
    startswith mid "<" = true /\
    (startswith id "<" = false \/ endswith_char id ">" = true ->
     endswith_char mid ">" = true).
Proof.
  intros Hev Hget Hne.
  destruct (tracking_event_inv self e ev Hev) as [Hm _].
  rewrite Hm. unfold message_id_of. rewrite Hget. unfold angle_bracketed.
  destruct id as [| c r]; [congruence |]. cbn [truthy andb].
  destruct (startswith (String c r) "<") eqn:Hs; cbn [negb].
  - exists (String c r). split; [reflexivity |]. split; [exact Hs |].
    intros [Hf | Hend]; [discriminate Hf | exact Hend].
  - exists ("<" ++ String c r ++ ">")%string. split; [reflexivity |].
    split; [apply startswith_cons |].
    intros _. cbn [String.append].
    rewrite endswith_cons by discriminate.
    apply (endswith_app (String c r) ">").
Qed.

End Mapper.

(** C5. Bracketing a message id twice gives what bracketing it once gives,
    and an id that starts with [<] is returned as it is. *)
Theorem angle_bracketed_idempotent (id : string) :
  angle_bracketed (angle_bracketed (Some id)) = angle_bracketed (Some id) /\
  angle_bracketed (Some ("<" ++ id)%string) = Some ("<" ++ id)%string.
Proof.
  split.
  - destruct (truthy id && negb (startswith id "<")) eqn:E.
    + replace (angle_bracketed (Some id)) with (Some ("<" ++ id ++ ">")%string)
        by (unfold angle_bracketed; rewrite E; reflexivity).
      unfold angle_bracketed. cbn [String.append truthy].
      rewrite (startswith_cons "<"). reflexivity.
    + replace (angle_bracketed (Some id)) with (Some id)
        by (unfold angle_bracketed; rewrite E; reflexivity).
      unfold angle_bracketed. rewrite E. reflexivity.
  - unfold angle_bracketed. cbn [String.append truthy].
    rewrite (startswith_cons "<"). reflexivity.
Qed.

(** An unset message id stays unset. *)
Lemma angle_bracketed_None : angle_bracketed None = None.
Proof. reflexivity. Qed.

(** C2, on the codes the spec lists. *)
Lemma reject_reason_table_witness :
  map (fun code => reject_reason_of (Cases.tracking [("code", code)]))
    ["499"; "605"; "607"; "450"; "250"; "5.1.1"; "2.1.5"] =
  map (fun r => Return (Some r))
    [RejectReason.TIMED_OUT; RejectReason.BOUNCED; RejectReason.SPAM;
     RejectReason.BOUNCED; RejectReason.OTHER; RejectReason.BOUNCED;
     RejectReason.OTHER].
Proof.
  pose (table := fun code =>
    reject_reason_table (L := Sample.library) (C := Sample.collaborators)
      Sample.view (Cases.tracking [("code", code)]) code eq_refl).
  cbn [map].
  rewrite (proj1 (table "499") eq_refl).
  rewrite (proj1 (proj2 (table "605")) eq_refl).
  rewrite (proj1 (proj2 (proj2 (table "607"))) eq_refl).
  rewrite (proj1 (proj2 (proj2 (proj2 (table "450")))) 450%Z eq_refl
             ltac:(discriminate) ltac:(split; discriminate)).
  rewrite (proj1 (proj2 (proj2 (proj2 (proj2 (table "250"))))) 250%Z eq_refl
             ltac:(discriminate) ltac:(discriminate) ltac:(left; reflexivity)).
  rewrite (proj1 (proj2 (proj2 (proj2 (proj2 (proj2 (table "5.1.1"))))))
             "5" "1.1" eq_refl ltac:(cbv; intuition discriminate)).
  rewrite (proj1 (proj2 (proj2 (proj2 (proj2 (proj2 (table "2.1.5"))))))
             "2" "1.5" eq_refl ltac:(cbv; intuition discriminate)).
  reflexivity.
Defined.

(** C3, at a code that is neither a number nor a dotted status: the reject
    reason is [OTHER], not unset. *)
Example illegal_code_reject_reason :
  reject_reason_of Cases.illegal_code = Return (Some RejectReason.OTHER) /\
  returned reject_reason
    (esp_to_anymail_event (L := Sample.library) (C := Sample.collaborators)
       Sample.view Cases.illegal_code) = Some (Some RejectReason.OTHER).
Proof.
  split; [reflexivity | vm_compute; reflexivity].
Qed.

(** C10, on a payload with the event name and the timestamp only. *)
Lemma message_id_absent_witness :
  returned message_id
    (esp_to_anymail_event (L := Sample.library) (C := Sample.collaborators)
       Sample.view (Cases.tracking [])) = Some None.
Proof.
  destruct (proj2 (proj2 (message_id_absent (L := Sample.library)
                            (C := Sample.collaborators) Sample.view
                            (Cases.tracking []) eq_refl eq_refl))
              "bounced" "1500000000" 1500000000%Z 1500000000%Z (JDict [])
              eq_refl eq_refl eq_refl eq_refl eq_refl) as (ev & Hev & Hid).
  rewrite Hev. cbn [returned]. rewrite Hid. reflexivity.
Defined.

(** C6, as the claim has it, fails on an id that opens a bracket and does not
    close it, and on an empty [Message-Id] beside a [message-id]. *)
Lemma message_id_not_delimited :
  (returned message_id
     (esp_to_anymail_event (L := Sample.library) (C := Sample.collaborators)
        Sample.view Cases.half_bracketed) = Some (Some "<abc") /\
   endswith_char "<abc" ">" = false) /\
  (get Cases.empty_first_spelling "message-id" None = Some "abc@example.com" /\
   returned message_id
     (esp_to_anymail_event (L := Sample.library) (C := Sample.collaborators)
        Sample.view Cases.empty_first_spelling) = Some (Some EmptyString)).
Proof.
  repeat split; vm_compute; reflexivity.
Qed.

(** C6, on a bare id. *)
Lemma message_id_bracketed_witness :
  exists mid,
    returned message_id
      (esp_to_anymail_event (L := Sample.library) (C := Sample.collaborators)
         Sample.view Cases.bare_id) = Some (Some mid) /\
    startswith mid "<" = true /\ endswith_char mid ">" = true.
Proof.
  destruct (tracking_event_returns (L := Sample.library)
              (C := Sample.collaborators) Sample.view Cases.bare_id
              "bounced" "1500000000" 1500000000%Z 1500000000%Z (JDict [])
              eq_refl eq_refl eq_refl eq_refl eq_refl) as [ev Hev].
  destruct (message_id_bracketed (L := Sample.library)
              (C := Sample.collaborators) Sample.view Cases.bare_id ev
              "abc@example.com" Hev eq_refl ltac:(discriminate))
    as (mid & Hm & Hs & He).
  exists mid. rewrite Hev. cbn [returned]. rewrite Hm.
  repeat split; try assumption.
  apply He. left. reflexivity.
Defined.

End TrackingFacts.

(** ** The signature check *)

Module ValidationFacts.

Import Py Json Django Anymail MailgunBaseWebhookView PyFacts DjangoFacts.

Section Check.

Context {L : Library} {C : Collaborators}.

Lemma security_fields_present (request : HttpRequest)
    (token timestamp signature : string) :
  getitem (POST request) "token" = Return token ->
  getitem (POST request) "timestamp" = Return timestamp ->
  getitem (POST request) "signature" = Return signature ->
  security_fields request = Return (token, timestamp, signature).
Proof.
  intros H1 H2 H3. unfold security_fields.
  rewrite H1, H2, H3. reflexivity.
Qed.

(** A missing field is reported before anything is compared. *)
Lemma security_fields_absent (request : HttpRequest) :
  contains (POST request) "token" && contains (POST request) "timestamp" &&
  contains (POST request) "signature" = false ->
  security_fields request =
  Raise (AnymailWebhookValidationFailure without_fields).
Proof.
  intros Hc. unfold security_fields.
  destruct (getitem_cases (POST request) "token") as [(tok & H1 & C1) | [H1 _]];
    rewrite H1; [| reflexivity].
  destruct (getitem_cases (POST request) "timestamp") as [(ts & H2 & C2) | [H2 _]];
    rewrite H2; [| reflexivity].
  destruct (getitem_cases (POST request) "signature") as [(sg & H3 & C3) | [H3 _]];
    rewrite H3; [| reflexivity].
  rewrite C1, C2, C3 in Hc. discriminate Hc.
Qed.

(** C1, as the code has it. When the inherited check passes:
    a request without one of [token], [timestamp] and [signature] is refused
    with a validation failure; with the three fields and an ASCII timestamp
    and token, the request is refused with a validation failure exactly when
    the signature differs from the hexadecimal HMAC-SHA256 of timestamp and
    token under the key, and accepted when it equals it; with the three
    fields and a timestamp or token that is not ASCII, the encoding error is
    raised. *)
Theorem validate_request_signature (self : t) (request : HttpRequest) :
  base_validate_request request = Return tt ->
  (contains (POST request) "token" && contains (POST request) "timestamp" &&
   contains (POST request) "signature" = false ->
   validate_request self request =
   Raise (AnymailWebhookValidationFailure without_fields)) /\
  (forall token timestamp signature,
     getitem (POST request) "token" = Return token ->
     getitem (POST request) "timestamp" = Return timestamp ->
     getitem (POST request) "signature" = Return signature ->
     is_ascii (timestamp ++ token) = true ->
     let digest :=
       hmac_sha256_hexdigest (api_key self) (timestamp ++ token) in
     ((exists msg, validate_request self request =
                   Raise (AnymailWebhookValidationFailure msg)) <->
      signature <> digest) /\
     (signature <> digest ->
      validate_request self request =
      Raise (AnymailWebhookValidationFailure incorrect_signature)) /\
     (signature = digest -> validate_request self request = Return tt)) /\
  (forall token timestamp signature,
     getitem (POST request) "token" = Return token ->
     getitem (POST request) "timestamp" = Return timestamp ->
     getitem (POST request) "signature" = Return signature ->
     is_ascii (timestamp ++ token) = false ->
     validate_request self request = raise_ UnicodeEncodeError).
Proof.
  intros Hbase. split; [| split].
  - intros Hc. unfold validate_request. rewrite Hbase. cbn [bind].
    rewrite (security_fields_absent request Hc). reflexivity.
  - intros token timestamp signature H1 H2 H3 Hascii digest.
    unfold validate_request. rewrite Hbase. cbn [bind].
    rewrite (security_fields_present request _ _ _ H1 H2 H3). cbn [bind].
    unfold encode_ascii. rewrite Hascii. cbn [bind].
    unfold constant_time_compare. fold digest.
    destruct (String.eqb_spec signature digest) as [Heq | Hne]; cbn [negb].
    + split; [| split].
      * split; [intros [msg Hm]; discriminate Hm | intros Hd; contradiction].
      * intros Hd. contradiction.
      * reflexivity.
    + split; [| split].
      * split; [intros _; exact Hne | intros _; eauto].
      * reflexivity.
      * intros Hd. contradiction.
  - intros token timestamp signature H1 H2 H3 Hascii.
    unfold validate_request. rewrite Hbase. cbn [bind].
    rewrite (security_fields_present request _ _ _ H1 H2 H3). cbn [bind].
    unfold encode_ascii. rewrite Hascii. reflexivity.
Qed.

End Check.

(** The HMAC of the examples is the one of RFC 4231 and of [hashlib]. *)
Example sha256_abc :
  Sha256.hexdigest "abc" =
  "ba7816bf8f01cfea414140de5dae2223b00361a396177a9cb410ff61f20015ad".
Proof. vm_compute. reflexivity. Qed.

Example hmac_rfc4231_case2 :
  Sha256.hmac_hexdigest "Jefe" "what do ya want for nothing?" =
  "5bdcc146bf60754e6a042426089575c75a003f089d2739839dec58b964ec3843".
Proof. vm_compute. reflexivity. Qed.

Example hmac_signature :
  Sha256.hmac_hexdigest (api_key Sample.view) "1500000000tok" = Cases.signature.
Proof. vm_compute. reflexivity. Qed.

(** C1, on a signed request, the same with one bit of the signature flipped,
    and a request without signature. *)
Lemma validate_request_signature_witness :
  validate_request (L := Sample.library) (C := Sample.collaborators)
    Sample.view Cases.signed = Return tt /\
  validate_request (L := Sample.library) (C := Sample.collaborators)
    Sample.view Cases.tampered =
  Raise (AnymailWebhookValidationFailure incorrect_signature) /\
  validate_request (L := Sample.library) (C := Sample.collaborators)
    Sample.view Cases.unsigned =
  Raise (AnymailWebhookValidationFailure without_fields).
Proof.
  pose (check := fun request =>
    validate_request_signature (L := Sample.library)
      (C := Sample.collaborators) Sample.view request eq_refl).
  split; [| split].
  - apply (proj1 (proj2 (check Cases.signed)) "tok" "1500000000" Cases.signature
             eq_refl eq_refl eq_refl eq_refl).
    vm_compute. reflexivity.
  - apply (proj1 (proj2 (check Cases.tampered)) "tok" "1500000000" _
             eq_refl eq_refl eq_refl eq_refl).
    vm_compute. discriminate.
  - apply (proj1 (check Cases.unsigned)). reflexivity.
Defined.

(** C1, as the claim has it, fails on a token that is not ASCII: the three
    fields are there, and the request is neither refused with a validation
    failure nor accepted, whether its signature is the HMAC of the bytes of
    timestamp and token or not. It fails as well when the inherited check
    refuses a request that is signed as it should be. *)
Lemma validate_request_not_ascii :
  (let request := Cases.non_ascii_token "bad" in
   security_fields request =
   Return (String (ascii_of_N 233) "tok", "1500000000", "bad") /\
   raised (validate_request (L := Sample.library) (C := Sample.collaborators)
             Sample.view request) = Some (Builtin UnicodeEncodeError)) /\
  (let digest :=
     Sha256.hmac_hexdigest (api_key Sample.view)
       ("1500000000" ++ String (ascii_of_N 233) "tok") in
   raised (validate_request (L := Sample.library) (C := Sample.collaborators)
             Sample.view (Cases.non_ascii_token digest)) =
   Some (Builtin UnicodeEncodeError)) /\
  (exists msg,
     validate_request (L := Sample.library)
       (C := Sample.collaborators_with_basic_auth) Sample.view Cases.signed =
     Raise (AnymailWebhookValidationFailure msg)).
Proof.
  split; [split; reflexivity | split].
  - reflexivity.
  - eexists. reflexivity.
Qed.

End ValidationFacts.

(** ** The metadata of a tracking event *)

Module MetadataFacts.

Import Py Json Django Anymail MailgunTrackingWebhookView PyFacts DjangoFacts.
Import TrackingFacts.

Lemma dict_get_set (d : dict) (k k' : string) (v : json) :
  dict_get (dict_set d k v) k' =
  if String.eqb k k' then Some v else dict_get d k'.
Proof.
  induction d as [| [k0 v0] d IH]; simpl.
  - reflexivity.
  - destruct (String.eqb_spec k0 k) as [-> | Hne]; simpl.
    + destruct (String.eqb k k'); reflexivity.
    + rewrite IH.
      destruct (String.eqb_spec k0 k') as [-> | Hne'].
      * destruct (String.eqb_spec k k'); [congruence | reflexivity].
      * reflexivity.
Qed.

Lemma dict_get_absent (d : dict) (k : string) :
  ~ In k (map fst d) -> dict_get d k = None.
Proof.
  induction d as [| [k0 v0] d IH]; simpl; intros Hnot; [reflexivity |].
  destruct (String.eqb_spec k0 k) as [-> | Hne]; [tauto |].
  apply IH. tauto.
Qed.

(** [d.update(other)] gives a key what [other] gives it, and what [d] gave
    it when [other] does not have it. *)
Lemma dict_get_update (other d : dict) (k : string) :
  NoDup (map fst other) ->
  dict_get (dict_update d other) k =
  match dict_get other k with
  | Some v => Some v
  | None => dict_get d k
  end.
Proof.
  unfold dict_update. revert d.
  induction other as [| [k0 v0] other IH]; intros d Hnd; [reflexivity |].
  cbn [fold_left fst snd]. inversion Hnd as [| ? ? Hnot Hnd']; subst.
  rewrite (IH _ Hnd'). rewrite dict_get_set. cbn [dict_get].
  destruct (String.eqb_spec k0 k) as [-> | Hne]; [| reflexivity].
  rewrite (dict_get_absent other k Hnot). reflexivity.
Qed.

Lemma merge_from (ds : list dict) (d0 : dict) (k : string) :
  Forall (fun d => NoDup (map fst d)) ds ->
  dict_get (fold_left dict_update ds d0) k =
  fold_left
    (fun found d =>
       match dict_get d k with
       | Some v => Some v
       | None => found
       end)
    ds (dict_get d0 k).
Proof.
  revert d0. induction ds as [| d ds IH]; intros d0 Hnd; [reflexivity |].
  inversion Hnd as [| ? ? Hd Hds]; subst. cbn [fold_left].
  rewrite (IH _ Hds). rewrite (dict_get_update d d0 k Hd). reflexivity.
Qed.

(** The merge of dictionaries gives every key its last binding. *)
Lemma merge_all_last_binding (ds : list dict) (k : string) :
  Forall (fun d => NoDup (map fst d)) ds ->
  dict_get (merge_all ds) k = Reading.last_binding ds k.
Proof.
  intros Hnd. unfold merge_all, Reading.last_binding.
  rewrite (merge_from ds [] k Hnd). reflexivity.
Qed.

Lemma all_dicts_map (ds : list dict) : all_dicts (map JDict ds) = Some ds.
Proof.
  induction ds as [| d ds IH]; simpl; [reflexivity |].
  rewrite IH. reflexivity.
Qed.

Lemma for_each_unpack2 (pairs : list (json * json)) :
  for_each unpack2 (map (fun fv => JList [fst fv; snd fv]) pairs) = Return pairs.
Proof.
  induction pairs as [| [f v] pairs IH]; [reflexivity |].
  cbn [map for_each fst snd]. rewrite IH. reflexivity.
Qed.

Section Mapper.

Context {L : Library} {C : Collaborators}.

Lemma for_each_loads_value (values : list json) (ds : list dict) :
  Forall2
    (fun v d => exists s, v = JStr s /\ json_loads_str s = Some (JDict d))
    values ds ->
  for_each loads_value values = Return (map JDict ds).
Proof.
  induction 1 as [| v d values ds (s & -> & Hs) _ IH]; [reflexivity |].
  cbn [for_each map]. unfold loads_value at 1, loads. rewrite Hs.
  cbn [bind]. rewrite IH. reflexivity.
Qed.

Lemma metadata_absent (e : QueryDict) :
  contains e "message-headers" = false -> metadata_of e = Return (JDict []).
Proof.
  intros Hc. unfold metadata_of. rewrite (getitem_absent _ _ Hc). reflexivity.
Qed.

(** Only a missing field is caught: the error of [json.loads] goes on. *)
Lemma metadata_malformed (e : QueryDict) (text : string) :
  getitem e "message-headers" = Return text ->
  json_loads_str text = None ->
  metadata_of e = raise_ JSONDecodeError.
Proof.
  intros Hg Hl. unfold metadata_of, loads. rewrite Hg. cbn [bind].
  rewrite Hl. reflexivity.
Qed.

Lemma metadata_merged (e : QueryDict) (text : string)
    (pairs : list (json * json)) (ds : list dict) :
  getitem e "message-headers" = Return text ->
  json_loads_str text =
  Some (JList (map (fun fv => JList [fst fv; snd fv]) pairs)) ->
  Forall2
    (fun v d => exists s, v = JStr s /\ json_loads_str s = Some (JDict d))
    (map snd (filter (fun fv => eq_str (fst fv) "X-Mailgun-Variables") pairs))
    ds ->
  metadata_of e = Return (JDict (merge_all ds)).
Proof.
  intros Hg Hl Hvars. unfold metadata_of, loads. rewrite Hg. cbn [bind].
  rewrite Hl. cbn [try_]. unfold variables_of. cbn [iter bind].
  rewrite for_each_unpack2. cbn [bind].
  rewrite (for_each_loads_value _ _ Hvars).
  destruct Hvars as [| v d values ds' Hv Hrest].
  - reflexivity.
  - cbn [List.length Nat.leb bind]. unfold combine.
    rewrite all_dicts_map. reflexivity.
Qed.

(** C4, as the code has it. Without a [message-headers] field the metadata
    are the empty mapping. With a field that is not JSON the decoding error
    is raised, by the mapper as well. With a field that is a JSON list of
    [name, value] pairs in which every [X-Mailgun-Variables] value is the
    JSON text of an object, the metadata are the merge of those objects, a
    key having the value the last object with that key gives it. The event
    the mapper returns carries those metadata. *)
Theorem metadata_from_headers (self : MailgunBaseWebhookView.t) (e : QueryDict) :
  (contains e "message-headers" = false ->
   metadata_of e = Return (JDict [])) /\
  (forall text,
     getitem e "message-headers" = Return text ->
     json_loads_str text = None ->
     metadata_of e = raise_ JSONDecodeError /\
     exists x, esp_to_anymail_event self e = Raise x) /\
  (forall text pairs ds,
     getitem e "message-headers" = Return text ->
     json_loads_str text =
     Some (JList (map (fun fv => JList [fst fv; snd fv]) pairs)) ->
     Forall2
       (fun v d => exists s, v = JStr s /\ json_loads_str s = Some (JDict d))
       (map snd
          (filter (fun fv => eq_str (fst fv) "X-Mailgun-Variables") pairs))
       ds ->
     metadata_of e = Return (JDict (merge_all ds)) /\
     (Forall (fun d => NoDup (map fst d)) ds ->
      forall k, dict_get (merge_all ds) k = Reading.last_binding ds k)) /\
  (forall ev, esp_to_anymail_event self e = Return ev ->
   metadata_of e = Return (metadata ev)).
Proof.
  split; [exact (metadata_absent e) |]. split; [| split].
  - intros text Hg Hl.
    pose proof (metadata_malformed e text Hg Hl) as Hm.
    split; [exact Hm |].
    destruct (esp_to_anymail_event self e) as [ev | x] eqn:Hev; [| eauto].
    destruct (tracking_event_inv self e ev Hev) as (_ & _ & Hmd & _).
    rewrite Hm in Hmd. discriminate Hmd.
  - intros text pairs ds Hg Hl Hvars.
    split; [exact (metadata_merged e text pairs ds Hg Hl Hvars) |].
    intros Hnd k. apply merge_all_last_binding. exact Hnd.
  - intros ev Hev. apply (tracking_event_inv self e ev Hev).
Qed.

End Mapper.

(** C4, as the claim has it, fails on headers that are not JSON: the mapper
    raises the decoding error. *)
Lemma malformed_headers_raise :
  get Cases.malformed_headers "message-headers" None = Some "[[" /\
  json_loads_str (Library := Sample.library) "[[" = None /\
  raised (esp_to_anymail_event (L := Sample.library)
            (C := Sample.collaborators) Sample.view Cases.malformed_headers) =
  Some (Builtin JSONDecodeError).
Proof.
  repeat split; vm_compute; reflexivity.
Qed.

(** C4, on two [X-Mailgun-Variables] headers around another header. *)
Lemma metadata_from_headers_witness :
  metadata_of (L := Sample.library) (C := Sample.collaborators)
    Cases.two_variables =
  Return (JDict [("a", JInt 1); ("b", JInt 2)]).
Proof.
  pose proof (metadata_from_headers (L := Sample.library)
                (C := Sample.collaborators) Sample.view Cases.two_variables)
    as (_ & _ & Hmerge & _).
  destruct (Hmerge
              (JsonText.q "[['X-Mailgun-Variables', '{\'a\': 1}'], ['Subject', 'hi'], ['X-Mailgun-Variables', '{\'b\': 2}']]")
              [ (JStr "X-Mailgun-Variables", JStr (JsonText.q "{'a': 1}"));
                (JStr "Subject", JStr "hi");
                (JStr "X-Mailgun-Variables", JStr (JsonText.q "{'b': 2}")) ]
              [ [("a", JInt 1)]; [("b", JInt 2)] ]
              eq_refl
              ltac:(vm_compute; reflexivity)
              ltac:(repeat constructor; eexists; (split; [reflexivity | vm_compute; reflexivity])))
    as [Hmd _].
  exact Hmd.
Defined.

(** The two merges the spec lists. *)
Example metadata_two_variables :
  returned metadata
    (esp_to_anymail_event (L := Sample.library) (C := Sample.collaborators)
       Sample.view Cases.two_variables) =
  Some (JDict [("a", JInt 1); ("b", JInt 2)]).
Proof. vm_compute. reflexivity. Qed.

Example metadata_overriding_variables :
  returned metadata
    (esp_to_anymail_event (L := Sample.library) (C := Sample.collaborators)
       Sample.view Cases.overriding_variables) =
  Some (JDict [("a", JInt 1); ("b", JInt 3)]).
Proof. vm_compute. reflexivity. Qed.

End MetadataFacts.

(** ** The inbound mapper *)

Module InboundFacts.

Import Py Json Django Anymail MailgunInboundWebhookView PyFacts DjangoFacts.
Import Reading.

(** The comprehension inserts every entry, turned around, when every value
    can be a key. *)
Lemma invert_swap (entries : list (string * json)) :
  invert entries =
  if forallb hashable (map snd entries)
  then Return (map swap entries)
  else raise_ TypeError.
Proof.
  induction entries as [| [cid att_id] entries IH]; [reflexivity |].
  cbn [invert map snd forallb].
  destruct (hashable att_id); [| reflexivity].
  rewrite IH. cbn [andb].
  destruct (forallb hashable (map snd entries)); reflexivity.
Qed.

Lemma filter_last {A : Type} (p : A -> bool) (l front : list A) (x : A) :
  filter p l = front ++ [x] ->
  exists before after,
    l = before ++ x :: after /\ filter p after = [] /\ p x = true.
Proof.
  revert front. induction l as [| y l IH]; intros front Hf.
  - destruct front; discriminate Hf.
  - cbn [filter] in Hf. destruct (p y) eqn:Hy.
    + destruct front as [| z front].
      * injection Hf as -> Hrest.
        exists [], l. auto.
      * injection Hf as -> Hrest.
        destruct (IH front Hrest) as (before & after & -> & Ha & Hx).
        exists (z :: before), after. auto.
    + destruct (IH front Hf) as (before & after & -> & Ha & Hx).
      exists (y :: before), after. auto.
Qed.

Lemma eq_str_true (v : json) (s : string) : eq_str v s = true -> v = JStr s.
Proof.
  destruct v; try discriminate. cbn [eq_str].
  intros H. apply String.eqb_eq in H. congruence.
Qed.

(** Looking a field up in the inverted map gives the key of the last entry
    whose value names the field. *)
Lemma att_cids_get_content_id (entries : list (string * json)) (field : string) :
  Reading.content_id_for entries field
    (att_cids_get (map swap entries) field).
Proof.
  unfold att_cids_get.
  set (p := fun kc : json * string => eq_str (fst kc) field).
  destruct (rev (filter p (map swap entries))) as [| [k cid] rest] eqn:R.
  - apply (f_equal (@rev _)) in R. rewrite rev_involutive in R. cbn in R.
    intros c Hin.
    assert (Hf : In (JStr field, c) (filter p (map swap entries))).
    { apply filter_In. split.
      - apply (in_map swap) in Hin. exact Hin.
      - unfold p. cbn. apply String.eqb_refl. }
    rewrite R in Hf. destruct Hf.
  - apply (f_equal (@rev _)) in R. rewrite rev_involutive in R.
    cbn [rev] in R.
    destruct (filter_last p _ _ _ R) as (b & a & Hsplit & Ha & Hp).
    apply eq_str_true in Hp. cbn [fst] in Hp. subst k.
    apply map_eq_app in Hsplit.
    destruct Hsplit as (eb & etail & -> & Hb & Htail).
    apply map_eq_cons in Htail.
    destruct Htail as ([c0 k0] & ea & -> & Hx & Hea).
    unfold swap in Hx. cbn [fst snd] in Hx. injection Hx as -> ->.
    exists eb, ea. split; [reflexivity |].
    intros c' Hin.
    assert (Hf : In (JStr field, c') (filter p a)).
    { apply filter_In. split.
      - rewrite <- Hea. apply (in_map swap) in Hin. exact Hin.
      - unfold p. cbn. apply String.eqb_refl. }
    rewrite Ha in Hf. destruct Hf.
Qed.

Lemma att_ids_of_2 : att_ids_of 2 = ["attachment-1"; "attachment-2"].
Proof. reflexivity. Qed.

Section Mapper.

Context {L : Library} {C : Collaborators}.

(** The attachments when the count is 2, step by step. *)
Lemma attachments_of_2 (request : HttpRequest) (count : string) :
  getitem (POST request) "attachment-count" = Return count ->
  int count = Return 2%Z ->
  attachments_of request =
  bind (MailgunTrackingWebhookView.loads
          (get_str (POST request) "content-id-map" "{}"))
    (fun cid_map =>
  bind (items cid_map) (fun entries =>
  bind (invert entries) (fun att_cids =>
  bind (getitem (FILES request) "attachment-1") (fun f1 =>
  bind (getitem (FILES request) "attachment-2") (fun f2 =>
  Return
    (Some
       [construct_attachment_from_uploaded_file f1
          (att_cids_get att_cids "attachment-1");
        construct_attachment_from_uploaded_file f2
          (att_cids_get att_cids "attachment-2")])))))).
Proof.
  intros Hg Hi. unfold attachments_of.
  rewrite Hg. cbn [bind]. rewrite Hi. cbn [try_].
  rewrite att_ids_of_2.
  destruct (MailgunTrackingWebhookView.loads _) as [cid_map |]; [| reflexivity].
  cbn [bind].
  destruct (items cid_map) as [entries |]; [| reflexivity]. cbn [bind].
  destruct (invert entries) as [att_cids |]; [| reflexivity]. cbn [bind for_each].
  destruct (getitem (FILES request) "attachment-1") as [f1 |]; [| reflexivity].
  cbn [bind].
  destruct (getitem (FILES request) "attachment-2") as [f2 |]; reflexivity.
Qed.

(** C7. With an [attachment-count] of 2, the attachments are those of the
    file fields [attachment-1] and [attachment-2], in that order, and of no
    other file field; each takes as content id the key of the last
    content-id-map entry whose value names its field, and none when no entry
    names it. They are reconstructed whenever the content-id map is a JSON
    object (or absent) whose values can be keys and the two files are there,
    and they are the attachments of the message. *)
Theorem attachments_reconstructed (self : MailgunBaseWebhookView.t)
    (request : HttpRequest) (count : string) :
  getitem (POST request) "attachment-count" = Return count ->
  int count = Return 2%Z ->
  (forall atts,
     attachments_of request = Return atts ->
     exists entries f1 f2 c1 c2,
       MailgunTrackingWebhookView.loads
         (get_str (POST request) "content-id-map" "{}") =
       Return (JDict entries) /\
       getitem (FILES request) "attachment-1" = Return f1 /\
       getitem (FILES request) "attachment-2" = Return f2 /\
       atts =
       Some [ {| payload := content f1; filename := name f1; content_id := c1 |};
              {| payload := content f2; filename := name f2; content_id := c2 |} ] /\
       Reading.content_id_for entries "attachment-1" c1 /\
       Reading.content_id_for entries "attachment-2" c2) /\
  (forall entries f1 f2,
     MailgunTrackingWebhookView.loads
       (get_str (POST request) "content-id-map" "{}") =
     Return (JDict entries) ->
     forallb hashable (map snd entries) = true ->
     getitem (FILES request) "attachment-1" = Return f1 ->
     getitem (FILES request) "attachment-2" = Return f2 ->
     exists atts, attachments_of request = Return (Some atts)) /\
  (forall request',
     POST request' = POST request ->
     getitem (FILES request') "attachment-1" =
     getitem (FILES request) "attachment-1" ->
     getitem (FILES request') "attachment-2" =
     getitem (FILES request) "attachment-2" ->
     attachments_of request' = attachments_of request) /\
  (forall atts text hdrs h,
     attachments_of request = Return atts ->
     getitem (POST request) "message-headers" = Return text ->
     json_loads_str text = Some hdrs ->
     headers_of_json hdrs = Some h ->
     exists m,
       message_from_mailgun_parsed self request = Return m /\
       atts = Some (attachments (parts m))).
Proof.
  intros Hg Hi. pose proof (attachments_of_2 request count Hg Hi) as Heq.
  split; [| split; [| split]].
  - intros atts Hret. rewrite Heq in Hret.
    destruct (MailgunTrackingWebhookView.loads _) as [cid_map |] eqn:Hl;
      [| discriminate Hret].
    cbn [bind] in Hret.
    destruct cid_map as [| | | | | | entries]; try discriminate Hret.
    cbn [items bind] in Hret. rewrite invert_swap in Hret.
    destruct (forallb hashable (map snd entries)); [| discriminate Hret].
    cbn [bind] in Hret.
    destruct (getitem (FILES request) "attachment-1") as [f1 |];
      [| discriminate Hret].
    cbn [bind] in Hret.
    destruct (getitem (FILES request) "attachment-2") as [f2 |];
      [| discriminate Hret].
    cbn [bind] in Hret. injection Hret as <-.
    exists entries, f1, f2,
      (att_cids_get (map swap entries) "attachment-1"),
      (att_cids_get (map swap entries) "attachment-2").
    repeat split; try reflexivity; apply att_cids_get_content_id.
  - intros entries f1 f2 Hl Hh H1 H2. rewrite Heq, Hl. cbn [bind items].
    rewrite invert_swap, Hh. cbn [bind]. rewrite H1, H2. cbn [bind]. eauto.
  - intros request' Hpost H1 H2.
    rewrite Heq. rewrite <- Hpost in Hg.
    rewrite (attachments_of_2 request' count Hg Hi).
    rewrite Hpost, H1, H2. reflexivity.
  - intros atts text hdrs h Hatts Ht Hl Hh.
    unfold message_from_mailgun_parsed. rewrite Hatts. cbn [bind].
    rewrite Ht. cbn [bind]. unfold MailgunTrackingWebhookView.loads.
    rewrite Hl. cbn [bind]. unfold construct. rewrite Hh.
    eexists. split; [reflexivity |]. cbn.
    rewrite Heq in Hatts.
    destruct (MailgunTrackingWebhookView.loads _); [| discriminate Hatts].
    cbn [bind] in Hatts.
    destruct (items _); [| discriminate Hatts]. cbn [bind] in Hatts.
    destruct (invert _); [| discriminate Hatts]. cbn [bind] in Hatts.
    destruct (getitem (FILES request) "attachment-1"); [| discriminate Hatts].
    cbn [bind] in Hatts.
    destruct (getitem (FILES request) "attachment-2"); [| discriminate Hatts].
    cbn [bind] in Hatts. injection Hatts as <-. reflexivity.
Qed.

(** What the assignment of the spam score does, case by case. *)
Lemma with_spam_score_eq (m : AnymailInboundMessage) :
  with_spam_score m =
  Return
    match header m "X-Mailgun-Sscore" with
    | Some s =>
        match float_of_str s with
        | Some x =>
            {| parts := parts m;
               envelope_sender := envelope_sender m;
               envelope_recipient := envelope_recipient m;
               stripped_text := stripped_text m;
               stripped_html := stripped_html m;
               spam_detected := spam_detected m;
               spam_score := Some x |}
        | None => m
        end
    | None => m
    end.
Proof.
  unfold with_spam_score, float_of.
  destruct (header m "X-Mailgun-Sscore") as [s |]; [| reflexivity].
  destruct (float_of_str s); reflexivity.
Qed.

(** A message comes without a spam score from either branch. *)
Lemma message_of_fresh (self : MailgunBaseWebhookView.t) (request : HttpRequest)
    (m : AnymailInboundMessage) :
  message_of self request = Return m -> spam_score m = None.
Proof.
  unfold message_of. destruct (contains (POST request) "body-mime").
  - intros H. apply bind_Return_inv in H. destruct H as (body & _ & H).
    unfold parse_raw_mime in H. apply bind_Return_inv in H.
    destruct H as (p & _ & H). injection H as <-. reflexivity.
  - unfold message_from_mailgun_parsed. intros H.
    apply bind_Return_inv in H. destruct H as (atts & _ & H).
    apply bind_Return_inv in H. destruct H as (text & _ & H).
    apply bind_Return_inv in H. destruct H as (hdrs & _ & H).
    unfold construct in H. destruct (headers_of_json hdrs).
    + injection H as <-. reflexivity.
    + apply bind_Return_inv in H. destruct H as (p & _ & H).
      injection H as <-. reflexivity.
Qed.

Lemma inbound_event_inv (self : MailgunBaseWebhookView.t) (request : HttpRequest)
    (ev : AnymailInboundEvent) :
  esp_to_anymail_event self request = Return ev ->
  exists m0,
    message_of self request = Return m0 /\
    with_spam_score (with_spam_detected (with_envelope m0 (POST request))) =
    Return (message ev).
Proof.
  unfold esp_to_anymail_event. intros H.
  apply bind_Return_inv in H. destruct H as (m0 & Hm0 & H).
  apply bind_Return_inv in H. destruct H as (m2 & Hm2 & H).
  apply bind_Return_inv in H. destruct H as (seconds & _ & H).
  apply bind_Return_inv in H. destruct H as (n & _ & H).
  apply bind_Return_inv in H. destruct H as (ts & _ & H).
  injection H as <-. exists m0. split; [exact Hm0 | exact Hm2].
Qed.

(** C9. Assigning the spam score raises nothing and leaves the rest of the
    message as it is. In the event the mapper returns, the spam score is the
    float that [float] reads from the [X-Mailgun-Sscore] header when the
    header is there and [float] accepts it, and is unset when the header is
    missing or its value is refused. The mapper returns an event whenever the
    message is built and the timestamp is read, whatever the header holds. *)
Theorem spam_score_from_header (self : MailgunBaseWebhookView.t)
    (request : HttpRequest) :
  (forall m, exists m',
     with_spam_score m = Return m' /\ parts m' = parts m) /\
  (forall ev,
     esp_to_anymail_event self request = Return ev ->
     (forall s x,
        header (message ev) "X-Mailgun-Sscore" = Some s ->
        float_of_str s = Some x ->
        spam_score (message ev) = Some x) /\
     (header (message ev) "X-Mailgun-Sscore" = None ->
      spam_score (message ev) = None) /\
     (forall s,
        header (message ev) "X-Mailgun-Sscore" = Some s ->
        float_of_str s = None ->
        spam_score (message ev) = None)) /\
  (forall m0 seconds n ts,
     message_of self request = Return m0 ->
     getitem (POST request) "timestamp" = Return seconds ->
     int seconds = Return n ->
     fromtimestamp_utc n = Return ts ->
     exists ev, esp_to_anymail_event self request = Return ev).
Proof.
  split; [| split].
  - intros m. rewrite with_spam_score_eq. eexists. split; [reflexivity |].
    destruct (header m "X-Mailgun-Sscore") as [s |]; [| reflexivity].
    destruct (float_of_str s); reflexivity.
  - intros ev Hev.
    destruct (inbound_event_inv self request ev Hev) as (m0 & Hm0 & Hm).
    pose proof (message_of_fresh self request m0 Hm0) as Hfresh.
    rewrite with_spam_score_eq in Hm. injection Hm as Hm.
    set (m1 := with_spam_detected (with_envelope m0 (POST request))) in *.
    assert (Hscore : spam_score m1 = None) by exact Hfresh.
    assert (Hheader : header (message ev) "X-Mailgun-Sscore" =
                      header m1 "X-Mailgun-Sscore").
    { assert (Hparts : parts (message ev) = parts m1).
      { rewrite <- Hm.
        destruct (header m1 "X-Mailgun-Sscore") as [s |]; [| reflexivity].
        destruct (float_of_str s); reflexivity. }
      unfold header. rewrite Hparts. reflexivity. }
    rewrite Hheader. rewrite <- Hm.
    destruct (header m1 "X-Mailgun-Sscore") as [s |].
    + destruct (float_of_str s) as [x |] eqn:Hx.
      * repeat split.
        -- intros s' x' Hs' Hx'. injection Hs' as <-. cbn. congruence.
        -- discriminate.
        -- intros s' Hs' Hx'. injection Hs' as <-. congruence.
      * repeat split.
        -- intros s' x' Hs' Hx'. injection Hs' as <-. congruence.
        -- discriminate.
        -- intros _ _ _. exact Hscore.
    + repeat split.
      * discriminate.
      * intros _. exact Hscore.
      * discriminate.
  - intros m0 seconds n ts Hm0 Hg Hi Hf.
    unfold esp_to_anymail_event. rewrite Hm0. cbn [bind].
    rewrite with_spam_score_eq. cbn [bind].
    rewrite Hg. cbn [bind]. rewrite Hi. cbn [bind]. rewrite Hf. cbn [bind].
    eauto.
Qed.

End Mapper.

(** C7, on a request that declares two attachments and posts three files. *)
Lemma attachments_reconstructed_witness :
  attachments_of (L := Sample.library) Cases.inbound_parsed =
  Return
    (Some [ {| payload := "AAA"; filename := "a.txt"; content_id := None |};
            {| payload := "BBB"; filename := "b.png";
               content_id := Some "<cid1>" |} ]) /\
  returned (fun m => List.length (attachments (parts m)))
    (message_from_mailgun_parsed (L := Sample.library)
       (C := Sample.collaborators) Sample.view Cases.inbound_parsed) =
  Some 2%nat.
Proof.
  pose proof (attachments_reconstructed (L := Sample.library)
                (C := Sample.collaborators) Sample.view Cases.inbound_parsed
                "2" eq_refl eq_refl) as (_ & _ & _ & Hmsg).
  assert (Hatts : attachments_of (L := Sample.library) Cases.inbound_parsed =
                  Return
                    (Some [ {| payload := "AAA"; filename := "a.txt";
                               content_id := None |};
                            {| payload := "BBB"; filename := "b.png";
                               content_id := Some "<cid1>" |} ]))
    by (vm_compute; reflexivity).
  split; [exact Hatts |].
  destruct (Hmsg _ _ _ _ Hatts eq_refl
              ltac:(vm_compute; reflexivity) ltac:(vm_compute; reflexivity))
    as (m & Hm & Ha).
  rewrite Hm. cbn [returned]. injection Ha as <-. reflexivity.
Defined.

(** C9, on a message whose score header reads 5.5. *)
Lemma spam_score_from_header_witness :
  returned (fun ev => spam_score (message ev))
    (esp_to_anymail_event (L := Sample.library) (C := Sample.collaborators)
       Sample.view Cases.inbound_parsed) = Some (Some (Qmake 11 2)).
Proof.
  pose proof (spam_score_from_header (L := Sample.library)
                (C := Sample.collaborators) Sample.view Cases.inbound_parsed)
    as (_ & Hscore & _).
  destruct (esp_to_anymail_event (L := Sample.library)
              (C := Sample.collaborators) Sample.view Cases.inbound_parsed)
    as [ev | x] eqn:Hev.
  - destruct (Hscore ev eq_refl) as (Hset & _ & _).
    assert (Hheader : returned (fun ev => header (message ev) "X-Mailgun-Sscore")
                        (esp_to_anymail_event (L := Sample.library)
                           (C := Sample.collaborators) Sample.view
                           Cases.inbound_parsed) = Some (Some "5.5"))
      by (vm_compute; reflexivity).
    rewrite Hev in Hheader. cbn [returned] in Hheader |- *.
    injection Hheader as Hheader.
    rewrite (Hset "5.5" (Qmake 11 2) Hheader ltac:(vm_compute; reflexivity)).
    reflexivity.
  - assert (Hret : raised (esp_to_anymail_event (L := Sample.library)
                             (C := Sample.collaborators) Sample.view
                             Cases.inbound_parsed) = None)
      by (vm_compute; reflexivity).
    rewrite Hev in Hret. discriminate Hret.
Defined.

(** C9, on the score 5.5, on a score that is not a number and on a message
    without score, for parsed fields and for raw MIME. *)
Example spam_score_examples :
  map (fun request =>
         returned (fun ev => spam_score (message ev))
           (esp_to_anymail_event (L := Sample.library)
              (C := Sample.collaborators) Sample.view request))
    [Cases.inbound_parsed; Cases.inbound_bad_score; Cases.inbound_no_score;
     Cases.inbound_raw] =
  [Some (Some (Qmake 11 2)); Some None; Some None; Some (Some (Qmake 11 2))].
Proof. vm_compute. reflexivity. Qed.

End InboundFacts.

(** ** More facts on the Python and Django models *)

Module MoreFacts.

Import Py Json Django PyFacts DjangoFacts.

Lemma In_values_of {V : Type} (q : list (string * V)) (key : string) (v : V) :
  In v (values_of q key) <-> In (key, v) q.
Proof.
  unfold values_of. rewrite in_map_iff. split.
  - intros ([k w] & Hw & Hin). cbn in Hw. subst w.
    apply filter_In in Hin. destruct Hin as [Hin Hk]. cbn in Hk.
    apply String.eqb_eq in Hk. subst k. exact Hin.
  - intros Hin. exists (key, v). split; [reflexivity |].
    apply filter_In. split; [exact Hin | apply String.eqb_refl].
Qed.

(** The first piece of a split is one character [c] only for [c] itself and
    for texts that go on with a dot. *)
Lemma split_hd_one (c : ascii) (s : string) :
  hd EmptyString (split "." s) = String c EmptyString ->
  s = String c EmptyString \/
  exists rest, s = String c (String "." rest).
Proof.
  destruct s as [| a s1]; cbn [split hd]; [discriminate |].
  destruct (Ascii.eqb a "."); cbn [hd]; [discriminate |].
  destruct (split_cons "." s1) as (h & t & Hs). rewrite Hs. cbn [hd].
  intros H. injection H as -> ->.
  destruct s1 as [| b s2]; [left; reflexivity |].
  cbn [split] in Hs. destruct (Ascii.eqb_spec b ".") as [-> | Hb].
  - right. eauto.
  - destruct (split "." s2); discriminate Hs.
Qed.

Lemma for_each_raise {A B : Type} (f : A -> result B) (good : list A)
    (ys : list B) (bad : A) (rest : list A) (x : exn) :
  for_each f good = Return ys ->
  f bad = Raise x ->
  for_each f (good ++ bad :: rest) = Raise x.
Proof.
  revert ys. induction good as [| a good IH]; intros ys Hgood Hbad.
  - cbn [app for_each]. rewrite Hbad. reflexivity.
  - cbn [app for_each] in Hgood |- *.
    destruct (f a) as [y |]; [| discriminate Hgood]. cbn [bind] in Hgood |- *.
    destruct (for_each f good) as [ys' |] eqn:E; [| discriminate Hgood].
    rewrite (IH ys' eq_refl Hbad). reflexivity.
Qed.

Lemma for_each_Forall2 {A B : Type} (f : A -> result B) (l : list A)
    (ys : list B) :
  for_each f l = Return ys -> Forall2 (fun x y => f x = Return y) l ys.
Proof.
  revert ys. induction l as [| x l IH]; intros ys H.
  - injection H as <-. constructor.
  - cbn [for_each] in H.
    apply bind_Return_inv in H. destruct H as (y & Hy & H).
    apply bind_Return_inv in H. destruct H as (ys' & Hys & H).
    injection H as <-. constructor; [exact Hy | apply IH; exact Hys].
Qed.

Lemma for_each_returns {A B : Type} (f : A -> result B) (l : list A) :
  (forall x, In x l -> exists y, f x = Return y) ->
  exists ys, for_each f l = Return ys.
Proof.
  induction l as [| x l IH]; intros Hall; [cbn; eauto |].
  destruct (Hall x (or_introl eq_refl)) as [y Hy].
  destruct IH as [ys Hys]; [intros z Hz; apply Hall; right; exact Hz |].
  cbn [for_each]. rewrite Hy. cbn [bind]. rewrite Hys. cbn [bind]. eauto.
Qed.

Lemma Forall2_nth_error {A B : Type} (R : A -> B -> Prop) (l : list A)
    (ys : list B) (i : nat) (y : B) :
  Forall2 R l ys -> nth_error ys i = Some y ->
  exists x, nth_error l i = Some x /\ R x y.
Proof.
  intros H. revert i. induction H as [| x y' l ys Hxy _ IH]; intros i Hi.
  - destruct i; discriminate Hi.
  - destruct i as [| i]; cbn in Hi |- *.
    + injection Hi as <-. eauto.
    + apply IH. exact Hi.
Qed.

End MoreFacts.

(** ** More on the tracking mapper *)

Module TrackingExtras.

Import Py Json Django Anymail MailgunTrackingWebhookView.
Import PyFacts DjangoFacts TrackingFacts MetadataFacts MoreFacts.

Section Mapper.

Context {L : Library} {C : Collaborators}.

(** Every field of a returned event, from the payload. *)
Lemma tracking_event_fields (self : MailgunBaseWebhookView.t) (e : QueryDict)
    (ev : AnymailTrackingEvent) :
  esp_to_anymail_event self e = Return ev ->
  exists name seconds n,
    getitem e "event" = Return name /\
    getitem e "timestamp" = Return seconds /\
    int seconds = Return n /\
    fromtimestamp_utc n = Return (timestamp ev) /\
    event_type ev = table_get String.eqb event_types name EventType.UNKNOWN /\
    mta_response ev = get e "error" (get e "notification" None) /\
    tags ev = getlist e "tag" (getlist e "X-Mailgun-Tag" []).
Proof.
  unfold esp_to_anymail_event. intros H.
  apply bind_Return_inv in H. destruct H as (name & Hname & H).
  apply bind_Return_inv in H. destruct H as (seconds & Hsec & H).
  apply bind_Return_inv in H. destruct H as (n & Hn & H).
  apply bind_Return_inv in H. destruct H as (ts & Hts & H).
  apply bind_Return_inv in H. destruct H as (rr & _ & H).
  apply bind_Return_inv in H. destruct H as (md & _ & H).
  injection H as <-. exists name, seconds, n. cbn. auto 10.
Qed.

(** X1. The event type of a returned event is the one the table gives the
    payload's event name, and [UNKNOWN] for every name that is not one of
    the seven of the table, those in another case included. *)
Theorem event_type_of_name (self : MailgunBaseWebhookView.t) (e : QueryDict)
    (ev : AnymailTrackingEvent) (name : string) :
  esp_to_anymail_event self e = Return ev ->
  getitem e "event" = Return name ->
  (In (name, event_type ev) event_types \/
   event_type ev = EventType.UNKNOWN /\ ~ In name (map fst event_types)) /\
  (name = "delivered" -> event_type ev = EventType.DELIVERED) /\
  (name = "dropped" -> event_type ev = EventType.REJECTED) /\
  (name = "bounced" -> event_type ev = EventType.BOUNCED) /\
  (name = "complained" -> event_type ev = EventType.COMPLAINED) /\
  (name = "unsubscribed" -> event_type ev = EventType.UNSUBSCRIBED) /\
  (name = "opened" -> event_type ev = EventType.OPENED) /\
  (name = "clicked" -> event_type ev = EventType.CLICKED).
Proof.
  intros Hev Hname.
  destruct (tracking_event_fields self e ev Hev)
    as (name' & _ & _ & Hname' & _ & _ & _ & Htype & _).
  rewrite Hname in Hname'. injection Hname' as <-. rewrite Htype.
  split.
  - unfold event_types. cbn [table_get map fst In].
    repeat match goal with
           | |- context [String.eqb ?k name] =>
               destruct (String.eqb_spec k name) as [<- | ?];
               [left; cbn; tauto |]
           end.
    right. split; [reflexivity | tauto].
  - repeat split; intros ->; reflexivity.
Qed.

(** X2. The mapper returns an event exactly when the payload has an [event]
    field and a [timestamp] field that [int] and [fromtimestamp] accept, and
    its metadata are read without an error. A missing [event] or
    [timestamp] field raises [KeyError], a timestamp that is not an integer
    raises [ValueError], and what [fromtimestamp] raises is raised. *)
Theorem tracking_event_required_fields (self : MailgunBaseWebhookView.t)
    (e : QueryDict) :
  ((exists ev, esp_to_anymail_event self e = Return ev) <->
   (exists name seconds n ts md,
      getitem e "event" = Return name /\
      getitem e "timestamp" = Return seconds /\
      int seconds = Return n /\
      fromtimestamp_utc n = Return ts /\
      metadata_of e = Return md)) /\
  (contains e "event" = false ->
   esp_to_anymail_event self e = raise_ KeyError) /\
  (contains e "event" = true -> contains e "timestamp" = false ->
   esp_to_anymail_event self e = raise_ KeyError) /\
  (forall seconds,
     contains e "event" = true ->
     getitem e "timestamp" = Return seconds ->
     int seconds = raise_ ValueError ->
     esp_to_anymail_event self e = raise_ ValueError) /\
  (forall seconds n x,
     contains e "event" = true ->
     getitem e "timestamp" = Return seconds ->
     int seconds = Return n ->
     fromtimestamp_utc n = Raise x ->
     esp_to_anymail_event self e = Raise x).
Proof.
  split; [split |].
  - intros [ev Hev].
    destruct (tracking_event_fields self e ev Hev)
      as (name & seconds & n & H1 & H2 & H3 & H4 & _).
    destruct (tracking_event_inv self e ev Hev) as (_ & _ & Hmd & _).
    exists name, seconds, n, (timestamp ev), (metadata ev). auto.
  - intros (name & seconds & n & ts & md & H1 & H2 & H3 & H4 & H5).
    exact (tracking_event_returns self e name seconds n ts md H1 H2 H3 H4 H5).
  - assert (Hevent : contains e "event" = true ->
                     exists name, getitem e "event" = Return name).
    { intros Hc. destruct (getitem_cases e "event") as [(v & Hv & _) | [_ Hn]];
        [eauto | congruence]. }
    repeat split.
    + intros Hc. unfold esp_to_anymail_event.
      rewrite (getitem_absent _ _ Hc). reflexivity.
    + intros Hc Ht. destruct (Hevent Hc) as [name Hname].
      unfold esp_to_anymail_event. rewrite Hname. cbn [bind].
      rewrite (getitem_absent _ _ Ht). reflexivity.
    + intros seconds Hc Ht Hi. destruct (Hevent Hc) as [name Hname].
      unfold esp_to_anymail_event. rewrite Hname. cbn [bind].
      rewrite Ht. cbn [bind]. rewrite Hi. reflexivity.
    + intros seconds n x Hc Ht Hi Hf. destruct (Hevent Hc) as [name Hname].
      unfold esp_to_anymail_event. rewrite Hname. cbn [bind].
      rewrite Ht. cbn [bind]. rewrite Hi. cbn [bind]. rewrite Hf. reflexivity.
Qed.

(** X3. The tags of a returned event are the values of the [tag] fields, in
    the order posted, when there is a [tag] field; the values of the
    [X-Mailgun-Tag] fields when there is none; and no tags without either.
    With both spellings posted, the [X-Mailgun-Tag] values are dropped. *)
Theorem tags_prefer_tag (self : MailgunBaseWebhookView.t) (e : QueryDict)
    (ev : AnymailTrackingEvent) :
  esp_to_anymail_event self e = Return ev ->
  (contains e "tag" = true ->
   tags ev = values_of e "tag" /\
   forall t, In t (tags ev) <-> In ("tag", t) e) /\
  (contains e "tag" = false ->
   tags ev = values_of e "X-Mailgun-Tag" /\
   forall t, In t (tags ev) <-> In ("X-Mailgun-Tag", t) e).
Proof.
  intros Hev.
  destruct (tracking_event_fields self e ev Hev)
    as (_ & _ & _ & _ & _ & _ & _ & _ & _ & Htags).
  rewrite Htags. unfold getlist. split; intros Hc; rewrite Hc.
  - split; [reflexivity | intros t; apply In_values_of].
  - destruct (contains e "X-Mailgun-Tag") eqn:Hx.
    + split; [reflexivity | intros t; apply In_values_of].
    + assert (Hnil : values_of e "X-Mailgun-Tag" = [])
        by (apply values_of_nil; exact Hx).
      rewrite Hnil. split; [reflexivity |].
      intros t. rewrite <- (In_values_of e "X-Mailgun-Tag" t), Hnil. tauto.
Qed.

(** X4. The MTA response of a returned event is the [error] field when the
    payload has one, the [notification] field when it has no [error] field,
    and unset without either; of a field posted several times the last
    value counts. *)
Theorem mta_response_fallback (self : MailgunBaseWebhookView.t) (e : QueryDict)
    (ev : AnymailTrackingEvent) :
  esp_to_anymail_event self e = Return ev ->
  (forall v, getitem e "error" = Return v -> mta_response ev = Some v) /\
  (contains e "error" = false ->
   forall v, getitem e "notification" = Return v -> mta_response ev = Some v) /\
  (contains e "error" = false -> contains e "notification" = false ->
   mta_response ev = None) /\
  (forall front v, e = front ++ [("error", v)] -> mta_response ev = Some v).
Proof.
  intros Hev.
  destruct (tracking_event_fields self e ev Hev)
    as (_ & _ & _ & _ & _ & _ & _ & _ & Hmta & _).
  rewrite Hmta. repeat split.
  - intros v Hv. apply get_present. exact Hv.
  - intros Hc v Hv. rewrite (get_absent _ _ _ Hc). apply get_present. exact Hv.
  - intros Hc Hn. rewrite (get_absent _ _ _ Hc). apply get_absent. exact Hn.
  - intros front v ->. apply get_present.
    unfold getitem, values_of. rewrite filter_app, map_app, rev_app_distr.
    reflexivity.
Qed.

(** X5. When the payload's code is not an integer, the reject reason is
    bounced exactly for the codes that start with "4." or "5.", and other
    for every other code: a status class must be followed by a dot. *)
Theorem status_class_rule (e : QueryDict) (code : string) :
  getitem e "code" = Return code ->
  int code = raise_ ValueError ->
  ((exists rest, code = ("4." ++ rest)%string \/ code = ("5." ++ rest)%string) ->
   reject_reason_of e = Return (Some RejectReason.BOUNCED)) /\
  ((forall rest, code <> ("4." ++ rest)%string /\ code <> ("5." ++ rest)%string) ->
   reject_reason_of e = Return (Some RejectReason.OTHER)).
Proof.
  intros Hg Hi. rewrite (reject_reason_not_int e code Hg Hi). split.
  - intros [rest [-> | ->]]; reflexivity.
  - intros Hnot. cbn [existsb].
    destruct (String.eqb_spec (hd EmptyString (split "." code)) "4") as [H4 | _].
    { destruct (split_hd_one _ _ H4) as [-> | [rest ->]].
      - discriminate Hi.
      - destruct (Hnot rest) as [Hn _]. exfalso. apply Hn. reflexivity. }
    destruct (String.eqb_spec (hd EmptyString (split "." code)) "5") as [H5 | _].
    { destruct (split_hd_one _ _ H5) as [-> | [rest ->]].
      - discriminate Hi.
      - destruct (Hnot rest) as [_ Hn]. exfalso. apply Hn. reflexivity. }
    reflexivity.
Qed.


End Mapper.

(** X1, on a click and on a name in another case. *)
Lemma event_type_of_name_witness :
  returned event_type
    (esp_to_anymail_event (L := Sample.library) (C := Sample.collaborators)
       Sample.view Payloads.clicked) = Some EventType.CLICKED.
Proof.
  destruct (esp_to_anymail_event (L := Sample.library)
              (C := Sample.collaborators) Sample.view Payloads.clicked)
    as [ev | x] eqn:Hev.
  - cbn [returned]. f_equal.
    apply (event_type_of_name (L := Sample.library)
             (C := Sample.collaborators) Sample.view Payloads.clicked ev
             "clicked" Hev eq_refl).
    reflexivity.
  - assert (Hret : raised (esp_to_anymail_event (L := Sample.library)
                             (C := Sample.collaborators) Sample.view
                             Payloads.clicked) = None)
      by (vm_compute; reflexivity).
    rewrite Hev in Hret. discriminate Hret.
Defined.

(** X3, with both spellings posted. *)
Lemma tags_prefer_tag_witness :
  returned tags
    (esp_to_anymail_event (L := Sample.library) (C := Sample.collaborators)
       Sample.view Payloads.clicked) = Some ["news"; "promo"].
Proof.
  destruct (esp_to_anymail_event (L := Sample.library)
              (C := Sample.collaborators) Sample.view Payloads.clicked)
    as [ev | x] eqn:Hev.
  - cbn [returned]. f_equal.
    apply (proj1 (tags_prefer_tag (L := Sample.library)
                    (C := Sample.collaborators) Sample.view Payloads.clicked
                    ev Hev) eq_refl).
  - assert (Hret : raised (esp_to_anymail_event (L := Sample.library)
                             (C := Sample.collaborators) Sample.view
                             Payloads.clicked) = None)
      by (vm_compute; reflexivity).
    rewrite Hev in Hret. discriminate Hret.
Defined.

(** X4, with an error posted after a notification. *)
Lemma mta_response_fallback_witness :
  returned mta_response
    (esp_to_anymail_event (L := Sample.library) (C := Sample.collaborators)
       Sample.view Payloads.clicked) = Some (Some "550 no such user").
Proof.
  destruct (esp_to_anymail_event (L := Sample.library)
              (C := Sample.collaborators) Sample.view Payloads.clicked)
    as [ev | x] eqn:Hev.
  - cbn [returned]. f_equal.
    apply (proj1 (mta_response_fallback (L := Sample.library)
                    (C := Sample.collaborators) Sample.view Payloads.clicked
                    ev Hev) "550 no such user" eq_refl).
  - assert (Hret : raised (esp_to_anymail_event (L := Sample.library)
                             (C := Sample.collaborators) Sample.view
                             Payloads.clicked) = None)
      by (vm_compute; reflexivity).
    rewrite Hev in Hret. discriminate Hret.
Defined.

(** X5, on a class without a dot after it and on a class with one. *)
Lemma status_class_rule_witness :
  reject_reason_of (Cases.tracking [("code", "5xx")]) =
  Return (Some RejectReason.OTHER) /\
  reject_reason_of (Cases.tracking [("code", "4.2.2")]) =
  Return (Some RejectReason.BOUNCED).
Proof.
  split.
  - apply (proj2 (status_class_rule (Cases.tracking [("code", "5xx")]) "5xx"
                    eq_refl eq_refl)).
    intros rest. split; discriminate.
  - apply (proj1 (status_class_rule (Cases.tracking [("code", "4.2.2")])
                    "4.2.2" eq_refl eq_refl)).
    exists "2.2". left. reflexivity.
Defined.


End TrackingExtras.

(** ** More on the signature check *)

Module ValidationExtras.

Import Py Json Django Anymail MailgunBaseWebhookView.
Import PyFacts DjangoFacts ValidationFacts.

Section Check.

Context {L : Library} {C : Collaborators}.

(** The check, once the inherited one has passed and the fields are read. *)
Lemma validate_request_fields (self : t) (request : HttpRequest)
    (token timestamp signature : string) :
  base_validate_request request = Return tt ->
  getitem (POST request) "token" = Return token ->
  getitem (POST request) "timestamp" = Return timestamp ->
  getitem (POST request) "signature" = Return signature ->
  validate_request self request =
  bind (encode_ascii (timestamp ++ token)) (fun msg =>
    if negb (constant_time_compare signature
               (hmac_sha256_hexdigest (api_key self) msg))
    then Raise (AnymailWebhookValidationFailure incorrect_signature)
    else Return tt).
Proof.
  intros Hbase H1 H2 H3. unfold validate_request. rewrite Hbase. cbn [bind].
  rewrite (security_fields_present request _ _ _ H1 H2 H3). reflexivity.
Qed.

(** X7. The signature covers timestamp and token joined without a mark
    between them: two requests with the same signature whose timestamp and
    token join to the same text are judged alike, wherever the text is cut
    into timestamp and token. *)
Theorem signature_covers_concatenation (self : t) (r1 r2 : HttpRequest)
    (token1 timestamp1 token2 timestamp2 signature : string) :
  base_validate_request r1 = Return tt ->
  base_validate_request r2 = Return tt ->
  getitem (POST r1) "token" = Return token1 ->
  getitem (POST r1) "timestamp" = Return timestamp1 ->
  getitem (POST r1) "signature" = Return signature ->
  getitem (POST r2) "token" = Return token2 ->
  getitem (POST r2) "timestamp" = Return timestamp2 ->
  getitem (POST r2) "signature" = Return signature ->
  (timestamp1 ++ token1)%string = (timestamp2 ++ token2)%string ->
  validate_request self r1 = validate_request self r2.
Proof.
  intros B1 B2 T1 S1 G1 T2 S2 G2 Hjoin.
  rewrite (validate_request_fields self r1 _ _ _ B1 T1 S1 G1).
  rewrite (validate_request_fields self r2 _ _ _ B2 T2 S2 G2).
  rewrite Hjoin. reflexivity.
Qed.

(** X8. What the check can do: raise what the inherited check raised, and
    after that check has passed, return, raise one of its two validation
    failures, or raise the encoding error. It raises nothing else. *)
Theorem validate_request_outcomes (self : t) (request : HttpRequest) :
  (exists x,
     base_validate_request request = Raise x /\
     validate_request self request = Raise x) \/
  (base_validate_request request = Return tt /\
   (validate_request self request = Return tt \/
    validate_request self request =
    Raise (AnymailWebhookValidationFailure without_fields) \/
    validate_request self request =
    Raise (AnymailWebhookValidationFailure incorrect_signature) \/
    validate_request self request = raise_ UnicodeEncodeError)).
Proof.
  destruct (base_validate_request request) as [[] | x] eqn:Hbase.
  - right. split; [reflexivity |].
    destruct (getitem_cases (POST request) "token") as [(tok & T & CT) | [_ CT]];
      [| right; left; unfold validate_request; rewrite Hbase; cbn [bind];
         rewrite security_fields_absent; [reflexivity | rewrite CT; reflexivity]].
    destruct (getitem_cases (POST request) "timestamp") as [(ts & S & CS) | [_ CS]];
      [| right; left; unfold validate_request; rewrite Hbase; cbn [bind];
         rewrite security_fields_absent;
         [reflexivity | rewrite CS; apply andb_false_iff; left;
                        apply andb_false_r]].
    destruct (getitem_cases (POST request) "signature") as [(sg & G & CG) | [_ CG]];
      [| right; left; unfold validate_request; rewrite Hbase; cbn [bind];
         rewrite security_fields_absent;
         [reflexivity | rewrite CG; apply andb_false_r]].
    rewrite (validate_request_fields self request tok ts sg Hbase T S G).
    unfold encode_ascii. destruct (is_ascii (ts ++ tok)); cbn [bind].
    + destruct (constant_time_compare sg _); cbn [negb]; auto.
    + auto.
  - left. exists x. split; [reflexivity |].
    unfold validate_request. rewrite Hbase. reflexivity.
Qed.

(** X9. A view takes an ASCII key as it is and refuses any other key with
    the encoding error; the view of a key accepts every request that passes
    the inherited check and is signed with the HMAC, under that key, of its
    ASCII timestamp and token. *)
Theorem init_then_validate (key : string) (request : HttpRequest)
    (token timestamp : string) :
  (is_ascii key = false -> init key = raise_ UnicodeEncodeError) /\
  (is_ascii key = true ->
   exists self,
     init key = Return self /\
     api_key self = key /\
     (base_validate_request request = Return tt ->
      getitem (POST request) "token" = Return token ->
      getitem (POST request) "timestamp" = Return timestamp ->
      getitem (POST request) "signature" =
      Return (hmac_sha256_hexdigest key (timestamp ++ token)) ->
      is_ascii (timestamp ++ token) = true ->
      validate_request self request = Return tt)).
Proof.
  unfold init, encode_ascii. split; intros Hkey; rewrite Hkey.
  - reflexivity.
  - cbn [bind]. eexists. split; [reflexivity |]. split; [reflexivity |].
    intros Hbase T S G Hascii.
    rewrite (validate_request_fields _ request _ _ _ Hbase T S G).
    unfold encode_ascii. rewrite Hascii. cbn [bind api_key].
    unfold constant_time_compare. rewrite String.eqb_refl. reflexivity.
Qed.

End Check.

(** X7, on a signed request and the same with the last digit of the
    timestamp moved to the token. *)
Lemma signature_covers_concatenation_witness :
  validate_request (L := Sample.library) (C := Sample.collaborators)
    Sample.view Payloads.shifted =
  validate_request (L := Sample.library) (C := Sample.collaborators)
    Sample.view Cases.signed.
Proof.
  exact (signature_covers_concatenation (L := Sample.library)
           (C := Sample.collaborators) Sample.view Payloads.shifted
           Cases.signed "0tok" "150000000" "tok" "1500000000" Cases.signature
           eq_refl eq_refl eq_refl eq_refl eq_refl eq_refl eq_refl eq_refl
           eq_refl).
Defined.

End ValidationExtras.

(** ** More on the inbound mapper *)

Module InboundExtras.

Import Py Json Django Anymail MailgunInboundWebhookView.
Import PyFacts DjangoFacts InboundFacts Reading MoreFacts.

(** The names of the file fields: [attachment-1] up to the count. *)
Lemma att_ids_of_nth (n : Z) (i : nat) :
  nth_error (att_ids_of n) i =
  if (i <? Z.to_nat n)%nat
  then Some ("attachment-" ++ format_d (Z.of_nat (S i)))%string
  else None.
Proof.
  unfold att_ids_of, range. rewrite !nth_error_map, nth_error_seq.
  replace (n + 1 - 1)%Z with n by lia.
  destruct (i <? Z.to_nat n)%nat; [| reflexivity].
  cbn [option_map Nat.add]. do 3 f_equal. lia.
Qed.

Lemma att_ids_of_length (n : Z) : List.length (att_ids_of n) = Z.to_nat n.
Proof.
  unfold att_ids_of, range. rewrite !length_map, length_seq. f_equal. lia.
Qed.

Lemma get_of_getitem (q q' : QueryDict) (key : string) (default : option string) :
  getitem q' key = getitem q key -> get q' key default = get q key default.
Proof.
  intros H. unfold get. rewrite H. reflexivity.
Qed.

Lemma lower_char_y (a : ascii) :
  lower_char a = "y"%char -> a = "y"%char \/ a = "Y"%char.
Proof.
  destruct a as [[] [] [] [] [] [] [] []]; intros H;
    try (vm_compute in H; discriminate H); auto.
Qed.

Lemma lower_char_e (a : ascii) :
  lower_char a = "e"%char -> a = "e"%char \/ a = "E"%char.
Proof.
  destruct a as [[] [] [] [] [] [] [] []]; intros H;
    try (vm_compute in H; discriminate H); auto.
Qed.

Lemma lower_char_s (a : ascii) :
  lower_char a = "s"%char -> a = "s"%char \/ a = "S"%char.
Proof.
  destruct a as [[] [] [] [] [] [] [] []]; intros H;
    try (vm_compute in H; discriminate H); auto.
Qed.

(** The texts that [lower] turns into [yes]. *)
Lemma lower_yes (v : string) :
  lower v = "yes" <->
  In v ["yes"; "yeS"; "yEs"; "yES"; "Yes"; "YeS"; "YEs"; "YES"].
Proof.
  split.
  - destruct v as [| a [| b [| c [| d r]]]]; cbn [lower]; intros H;
      try discriminate H.
    injection H as Ha Hb Hc.
    destruct (lower_char_y a Ha) as [-> | ->];
      destruct (lower_char_e b Hb) as [-> | ->];
      destruct (lower_char_s c Hc) as [-> | ->]; cbn; tauto.
  - cbn [In]. intros H.
    repeat (destruct H as [<- | H]; [reflexivity |]). destruct H.
Qed.

Section Mapper.

Context {L : Library} {C : Collaborators}.

(** The attachments under a count [n], step by step. *)
Lemma attachments_of_count (request : HttpRequest) (count : string) (n : Z) :
  getitem (POST request) "attachment-count" = Return count ->
  int count = Return n ->
  attachments_of request =
  bind (MailgunTrackingWebhookView.loads
          (get_str (POST request) "content-id-map" "{}"))
    (fun cid_map =>
  bind (items cid_map) (fun entries =>
  bind (invert entries) (fun att_cids =>
  bind (for_each
          (fun att_id =>
             bind (getitem (FILES request) att_id) (fun file =>
               Return (construct_attachment_from_uploaded_file file
                         (att_cids_get att_cids att_id))))
          (att_ids_of n))
    (fun attachments => Return (Some attachments))))).
Proof.
  intros Hg Hi. unfold attachments_of. rewrite Hg. cbn [bind]. rewrite Hi.
  reflexivity.
Qed.

(** X10. With an [attachment-count] of [n], the attachments returned are
    [n] in number (none for a count of zero or below), and the one at place
    [i], counted from zero, has the content and name of the file posted as
    [attachment-(i+1)] and the content id the content-id map gives that
    field. *)
Theorem attachments_by_count (request : HttpRequest) (count : string) (n : Z)
    (atts : option (list Attachment)) :
  getitem (POST request) "attachment-count" = Return count ->
  int count = Return n ->
  attachments_of request = Return atts ->
  exists entries l,
    MailgunTrackingWebhookView.loads
      (get_str (POST request) "content-id-map" "{}") = Return (JDict entries) /\
    atts = Some l /\
    List.length l = Z.to_nat n /\
    forall i a,
      nth_error l i = Some a ->
      let field := ("attachment-" ++ format_d (Z.of_nat (S i)))%string in
      exists file,
        getitem (FILES request) field = Return file /\
        payload a = content file /\
        filename a = name file /\
        content_id_for entries field (content_id a).
Proof.
  intros Hg Hi Hret. rewrite (attachments_of_count request count n Hg Hi) in Hret.
  apply bind_Return_inv in Hret. destruct Hret as (cid_map & Hl & Hret).
  apply bind_Return_inv in Hret. destruct Hret as (entries & He & Hret).
  destruct cid_map; try discriminate He. injection He as ->.
  apply bind_Return_inv in Hret. destruct Hret as (att_cids & Hinv & Hret).
  rewrite invert_swap in Hinv.
  destruct (forallb hashable (map snd entries)); [| discriminate Hinv].
  injection Hinv as <-.
  apply bind_Return_inv in Hret. destruct Hret as (l & Hl' & Hret).
  injection Hret as <-.
  apply for_each_Forall2 in Hl'.
  exists entries, l. split; [exact Hl |]. split; [reflexivity |]. split.
  - rewrite <- (Forall2_length Hl'). apply att_ids_of_length.
  - intros i a Ha field.
    destruct (Forall2_nth_error _ _ _ i a Hl' Ha) as (att_id & Hid & Hatt).
    rewrite att_ids_of_nth in Hid.
    destruct (i <? Z.to_nat n)%nat; [| discriminate Hid].
    injection Hid as <-. fold field in Hatt.
    apply bind_Return_inv in Hatt. destruct Hatt as (file & Hfile & Hatt).
    injection Hatt as <-. exists file. cbn.
    repeat split; try assumption. apply att_cids_get_content_id.
Qed.

(** X11. Without an [attachment-count] field no attachment is read: files
    and content-id map are not looked at, so that the message depends on
    the headers and the two bodies alone. *)
Theorem no_attachment_count (self : MailgunBaseWebhookView.t)
    (request : HttpRequest) :
  contains (POST request) "attachment-count" = false ->
  attachments_of request = Return None /\
  (forall request',
     contains (POST request') "attachment-count" = false ->
     getitem (POST request') "message-headers" =
     getitem (POST request) "message-headers" ->
     getitem (POST request') "body-plain" = getitem (POST request) "body-plain" ->
     getitem (POST request') "body-html" = getitem (POST request) "body-html" ->
     message_from_mailgun_parsed self request' =
     message_from_mailgun_parsed self request).
Proof.
  intros Hc.
  assert (Hnone : forall r, contains (POST r) "attachment-count" = false ->
                  attachments_of r = Return None).
  { intros r Hr. unfold attachments_of. rewrite (getitem_absent _ _ Hr).
    reflexivity. }
  split; [exact (Hnone request Hc) |].
  intros request' Hc' Hh Hp Hhtml. unfold message_from_mailgun_parsed.
  rewrite (Hnone request Hc), (Hnone request' Hc'). cbn [bind].
  rewrite Hh.
  rewrite (get_of_getitem _ _ "body-plain" None Hp).
  rewrite (get_of_getitem _ _ "body-html" None Hhtml).
  reflexivity.
Qed.

(** X12. What goes wrong with an [attachment-count] field: a count that is
    not an integer raises [ValueError]; with an integer count, a content-id
    map that is not JSON raises the decoding error, one that is JSON and no
    object raises [AttributeError], one with a list or an object as a value
    raises [TypeError], and, with a proper map, the first file field
    missing among those counted raises [KeyError]. *)
Theorem attachments_errors (request : HttpRequest) (count : string) :
  getitem (POST request) "attachment-count" = Return count ->
  (int count = raise_ ValueError ->
   attachments_of request = raise_ ValueError) /\
  (forall n, int count = Return n ->
     let text := get_str (POST request) "content-id-map" "{}" in
     (json_loads_str text = None ->
      attachments_of request = raise_ JSONDecodeError) /\
     (forall v, json_loads_str text = Some v ->
        (forall entries, v <> JDict entries) ->
        attachments_of request = raise_ AttributeError) /\
     (forall entries, json_loads_str text = Some (JDict entries) ->
        forallb hashable (map snd entries) = false ->
        attachments_of request = raise_ TypeError) /\
     (forall entries i, json_loads_str text = Some (JDict entries) ->
        forallb hashable (map snd entries) = true ->
        (i < Z.to_nat n)%nat ->
        (forall j, (j < i)%nat ->
           contains (FILES request)
             ("attachment-" ++ format_d (Z.of_nat (S j))) = true) ->
        contains (FILES request)
          ("attachment-" ++ format_d (Z.of_nat (S i))) = false ->
        attachments_of request = raise_ KeyError)).
Proof.
  intros Hg. split.
  - intros Hi. unfold attachments_of. rewrite Hg. cbn [bind]. rewrite Hi.
    reflexivity.
  - intros n Hi text. rewrite (attachments_of_count request count n Hg Hi).
    fold text. unfold MailgunTrackingWebhookView.loads.
    split; [| split; [| split]].
    + intros Hl. rewrite Hl. reflexivity.
    + intros v Hl Hv. rewrite Hl. cbn [bind].
      destruct v; try reflexivity. exfalso. apply (Hv entries). reflexivity.
    + intros entries Hl Hh. rewrite Hl. cbn [bind items].
      rewrite invert_swap, Hh. reflexivity.
    + intros entries i Hl Hh Hi' Hbefore Hmissing.
      rewrite Hl. cbn [bind items]. rewrite invert_swap, Hh. cbn [bind].
      pose proof (att_ids_of_nth n i) as Hnth.
      apply Nat.ltb_lt in Hi'. rewrite Hi' in Hnth.
      destruct (nth_error_split _ _ Hnth) as (good & rest & Hsplit & Hlen).
      rewrite Hsplit.
      set (f := fun att_id : string =>
                  bind (getitem (FILES request) att_id) (fun file =>
                    Return (construct_attachment_from_uploaded_file file
                              (att_cids_get (map swap entries) att_id)))).
      assert (Hgood : exists ys, for_each f good = Return ys).
      { apply for_each_returns. intros x Hx.
        destruct (In_nth_error _ _ Hx) as [j Hj].
        assert (Hjlt : (j < i)%nat).
        { rewrite <- Hlen. apply nth_error_Some. congruence. }
        assert (Hj' : nth_error (att_ids_of n) j = Some x).
        { rewrite Hsplit. rewrite nth_error_app1 by lia. exact Hj. }
        rewrite att_ids_of_nth in Hj'.
        destruct (j <? Z.to_nat n)%nat; [| discriminate Hj'].
        assert (Hx' : x = ("attachment-" ++ format_d (Z.of_nat (S j)))%string)
          by congruence.
        subst x. clear Hj'.
        pose proof (Hbefore j Hjlt) as Hc.
        destruct (getitem_cases (FILES request)
                    ("attachment-" ++ format_d (Z.of_nat (S j))))
          as [(file & Hfile & _) | [_ Hn]]; [| congruence].
        unfold f. rewrite Hfile. cbn [bind]. eauto. }
      destruct Hgood as [ys Hys].
      rewrite (for_each_raise f good ys _ rest (Builtin KeyError) Hys).
      * reflexivity.
      * unfold f. rewrite (getitem_absent _ _ Hmissing). reflexivity.
Qed.

(** X13. In the parsed branch the headers are required: once the
    attachments are read, a missing [message-headers] field raises
    [KeyError] and one that is not JSON raises the decoding error, and the
    mapper raises the same when the request has no raw MIME field. *)
Theorem parsed_headers_required (self : MailgunBaseWebhookView.t)
    (request : HttpRequest) (atts : option (list Attachment)) :
  attachments_of request = Return atts ->
  (contains (POST request) "message-headers" = false ->
   message_from_mailgun_parsed self request = raise_ KeyError /\
   (contains (POST request) "body-mime" = false ->
    esp_to_anymail_event self request = raise_ KeyError)) /\
  (forall text,
     getitem (POST request) "message-headers" = Return text ->
     json_loads_str text = None ->
     message_from_mailgun_parsed self request = raise_ JSONDecodeError /\
     (contains (POST request) "body-mime" = false ->
      esp_to_anymail_event self request = raise_ JSONDecodeError)).
Proof.
  intros Hatts.
  assert (Hup : forall c, message_from_mailgun_parsed self request = raise_ c ->
                contains (POST request) "body-mime" = false ->
                esp_to_anymail_event self request = raise_ c).
  { intros c Hm Hb. unfold esp_to_anymail_event, message_of.
    rewrite Hb, Hm. reflexivity. }
  split.
  - intros Hc.
    assert (Hm : message_from_mailgun_parsed self request = raise_ KeyError).
    { unfold message_from_mailgun_parsed. rewrite Hatts. cbn [bind].
      rewrite (getitem_absent _ _ Hc). reflexivity. }
    split; [exact Hm | apply Hup; exact Hm].
  - intros text Ht Hl.
    assert (Hm : message_from_mailgun_parsed self request = raise_ JSONDecodeError).
    { unfold message_from_mailgun_parsed. rewrite Hatts. cbn [bind].
      rewrite Ht. cbn [bind]. unfold MailgunTrackingWebhookView.loads.
      rewrite Hl. reflexivity. }
    split; [exact Hm | apply Hup; exact Hm].
Qed.

(** What the mapper returns as message and what it raises, without the
    event around the message. *)
Lemma inbound_message_steps (self : MailgunBaseWebhookView.t)
    (request : HttpRequest) :
  let steps :=
    bind (message_of self request) (fun m0 =>
    bind (with_spam_score
            (with_spam_detected (with_envelope m0 (POST request)))) (fun m =>
    bind (getitem (POST request) "timestamp") (fun seconds =>
    bind (int seconds) (fun n =>
    bind (fromtimestamp_utc n) (fun _ => Return m))))) in
  returned message (esp_to_anymail_event self request) = returned id steps /\
  raised (esp_to_anymail_event self request) = raised steps.
Proof.
  unfold esp_to_anymail_event.
  destruct (message_of self request) as [m0 |]; [| split; reflexivity].
  cbn [bind].
  destruct (with_spam_score _) as [m |]; [| split; reflexivity]. cbn [bind].
  destruct (getitem (POST request) "timestamp") as [seconds |];
    [| split; reflexivity].
  cbn [bind]. destruct (int seconds) as [n |]; [| split; reflexivity].
  cbn [bind]. destruct (fromtimestamp_utc n); split; reflexivity.
Qed.

(** X14. A raw MIME field takes precedence: the message is the one parsed
    from it, and neither the parsed fields nor the files are looked at, so
    that two requests with the same raw MIME, envelope, stripped replies
    and timestamp yield the same message or the same error. *)
Theorem raw_mime_takes_precedence (self : MailgunBaseWebhookView.t)
    (request : HttpRequest) (body : string) :
  getitem (POST request) "body-mime" = Return body ->
  message_of self request = parse_raw_mime body /\
  (forall request',
     (forall key,
        In key ["body-mime"; "sender"; "recipient"; "stripped-text";
                "stripped-html"; "timestamp"] ->
        getitem (POST request') key = getitem (POST request) key) ->
     returned message (esp_to_anymail_event self request') =
     returned message (esp_to_anymail_event self request) /\
     raised (esp_to_anymail_event self request') =
     raised (esp_to_anymail_event self request)).
Proof.
  intros Hb.
  assert (Hraw : forall r, getitem (POST r) "body-mime" = Return body ->
                 message_of self r = parse_raw_mime body).
  { intros r Hr. unfold message_of. rewrite (getitem_present _ _ _ Hr), Hr.
    reflexivity. }
  split; [exact (Hraw request Hb) |].
  intros request' Hsame.
  assert (Hb' : getitem (POST request') "body-mime" = Return body).
  { rewrite (Hsame "body-mime"); [exact Hb | cbn; tauto]. }
  assert (Henv : forall m0, with_envelope m0 (POST request') =
                            with_envelope m0 (POST request)).
  { intros m0. unfold with_envelope.
    rewrite (get_of_getitem _ _ "sender" None
               (Hsame "sender" ltac:(cbn; tauto))).
    rewrite (get_of_getitem _ _ "recipient" None
               (Hsame "recipient" ltac:(cbn; tauto))).
    rewrite (get_of_getitem _ _ "stripped-text" None
               (Hsame "stripped-text" ltac:(cbn; tauto))).
    rewrite (get_of_getitem _ _ "stripped-html" None
               (Hsame "stripped-html" ltac:(cbn; tauto))).
    reflexivity. }
  destruct (inbound_message_steps self request) as [R1 E1].
  destruct (inbound_message_steps self request') as [R2 E2].
  rewrite R1, R2, E1, E2. rewrite (Hraw request Hb), (Hraw request' Hb').
  rewrite (Hsame "timestamp") by (cbn; tauto).
  split; destruct (parse_raw_mime body) as [m0 |]; cbn [bind];
    try rewrite Henv; reflexivity.
Qed.

(** The parts, the envelope and the spam flag of the message of a returned
    event, from the message as it was built. *)
Lemma inbound_message_inv (self : MailgunBaseWebhookView.t)
    (request : HttpRequest) (ev : AnymailInboundEvent) :
  esp_to_anymail_event self request = Return ev ->
  exists m0,
    message_of self request = Return m0 /\
    parts (message ev) = parts m0 /\
    envelope_sender (message ev) = get (POST request) "sender" None /\
    envelope_recipient (message ev) = get (POST request) "recipient" None /\
    stripped_text (message ev) = get (POST request) "stripped-text" None /\
    stripped_html (message ev) = get (POST request) "stripped-html" None /\
    spam_detected (message ev) =
    Some (String.eqb
            (lower (match header (message ev) "X-Mailgun-Sflag" with
                    | Some v => v
                    | None => "No"
                    end)) "yes").
Proof.
  intros Hev.
  destruct (inbound_event_inv self request ev Hev) as (m0 & Hm0 & Hm).
  rewrite with_spam_score_eq in Hm.
  exists m0. split; [exact Hm0 |].
  revert Hm.
  destruct (header _ "X-Mailgun-Sscore") as [s |];
    [destruct (float_of_str s) |];
    intros Hm; injection Hm as <-;
    unfold header, header_get, with_spam_detected, with_envelope, header;
    cbn; auto 10.
Qed.

(** X15. The message of a returned event always has its spam flag set, and
    the flag is true exactly when the message has an [X-Mailgun-Sflag]
    header whose value reads [yes] in any case; without the header the flag
    is false. *)
Theorem spam_detected_flag (self : MailgunBaseWebhookView.t)
    (request : HttpRequest) (ev : AnymailInboundEvent) :
  esp_to_anymail_event self request = Return ev ->
  exists flag,
    spam_detected (message ev) = Some flag /\
    (flag = true <->
     exists v,
       header (message ev) "X-Mailgun-Sflag" = Some v /\
       In v ["yes"; "yeS"; "yEs"; "yES"; "Yes"; "YeS"; "YEs"; "YES"]).
Proof.
  intros Hev.
  destruct (inbound_message_inv self request ev Hev)
    as (m0 & _ & _ & _ & _ & _ & _ & Hflag).
  eexists. split; [exact Hflag |].
  destruct (header (message ev) "X-Mailgun-Sflag") as [v |].
  - rewrite String.eqb_eq, lower_yes. split.
    + intros Hin. exists v. split; [reflexivity | exact Hin].
    + intros (v' & Hv' & Hin). injection Hv' as <-. exact Hin.
  - split; [discriminate |]. intros (v & Hv & _). discriminate Hv.
Qed.

(** X16. The envelope sender and recipient and the stripped text and HTML
    of the message of a returned event are the request's [sender],
    [recipient], [stripped-text] and [stripped-html] fields, unset when the
    field is missing, in the raw MIME branch as in the parsed one; headers,
    bodies and attachments stay those of the message as it was built. *)
Theorem envelope_from_post (self : MailgunBaseWebhookView.t)
    (request : HttpRequest) (ev : AnymailInboundEvent) :
  esp_to_anymail_event self request = Return ev ->
  envelope_sender (message ev) = get (POST request) "sender" None /\
  envelope_recipient (message ev) = get (POST request) "recipient" None /\
  stripped_text (message ev) = get (POST request) "stripped-text" None /\
  stripped_html (message ev) = get (POST request) "stripped-html" None /\
  exists m0,
    message_of self request = Return m0 /\ parts (message ev) = parts m0.
Proof.
  intros Hev.
  destruct (inbound_message_inv self request ev Hev)
    as (m0 & Hm0 & Hparts & H1 & H2 & H3 & H4 & _).
  repeat split; try assumption. exists m0. auto.
Qed.

(** X17. The inbound mapper returns an event exactly when the message is
    built and the request has a [timestamp] field that [int] and
    [fromtimestamp] accept. The event is of type [INBOUND], carries the
    request itself and the [token] field as its id. What building the
    message raises is raised, and a message built for a request without
    timestamp ends in [KeyError]. *)
Theorem inbound_event_required_fields (self : MailgunBaseWebhookView.t)
    (request : HttpRequest) :
  ((exists ev, esp_to_anymail_event self request = Return ev) <->
   (exists m0 seconds n ts,
      message_of self request = Return m0 /\
      getitem (POST request) "timestamp" = Return seconds /\
      int seconds = Return n /\
      fromtimestamp_utc n = Return ts)) /\
  (forall ev,
     esp_to_anymail_event self request = Return ev ->
     inbound_event_type ev = EventType.INBOUND /\
     inbound_event_id ev = get (POST request) "token" None /\
     inbound_esp_event ev = request /\
     exists seconds n,
       getitem (POST request) "timestamp" = Return seconds /\
       int seconds = Return n /\
       fromtimestamp_utc n = Return (inbound_timestamp ev)) /\
  (forall x, message_of self request = Raise x ->
     esp_to_anymail_event self request = Raise x) /\
  (forall m0, message_of self request = Return m0 ->
     contains (POST request) "timestamp" = false ->
     esp_to_anymail_event self request = raise_ KeyError).
Proof.
  assert (Hinv : forall ev,
            esp_to_anymail_event self request = Return ev ->
            exists m0 seconds n,
              message_of self request = Return m0 /\
              getitem (POST request) "timestamp" = Return seconds /\
              int seconds = Return n /\
              fromtimestamp_utc n = Return (inbound_timestamp ev) /\
              inbound_event_type ev = EventType.INBOUND /\
              inbound_event_id ev = get (POST request) "token" None /\
              inbound_esp_event ev = request).
  { unfold esp_to_anymail_event. intros ev H.
    apply bind_Return_inv in H. destruct H as (m0 & Hm0 & H).
    apply bind_Return_inv in H. destruct H as (m2 & _ & H).
    apply bind_Return_inv in H. destruct H as (seconds & Hs & H).
    apply bind_Return_inv in H. destruct H as (n & Hn & H).
    apply bind_Return_inv in H. destruct H as (ts & Hts & H).
    injection H as <-. exists m0, seconds, n. cbn. auto 10. }
  split; [split |]; [| | split; [| split]].
  - intros [ev Hev].
    destruct (Hinv ev Hev) as (m0 & seconds & n & H1 & H2 & H3 & H4 & _).
    exists m0, seconds, n, (inbound_timestamp ev). auto.
  - intros (m0 & seconds & n & ts & H1 & H2 & H3 & H4).
    unfold esp_to_anymail_event. rewrite H1. cbn [bind].
    rewrite with_spam_score_eq. cbn [bind].
    rewrite H2. cbn [bind]. rewrite H3. cbn [bind]. rewrite H4. cbn [bind].
    eauto.
  - intros ev Hev.
    destruct (Hinv ev Hev)
      as (m0 & seconds & n & _ & H2 & H3 & H4 & H5 & H6 & H7).
    repeat split; try assumption. exists seconds, n. auto.
  - intros x Hx. unfold esp_to_anymail_event. rewrite Hx. reflexivity.
  - intros m0 Hm0 Hc. unfold esp_to_anymail_event. rewrite Hm0. cbn [bind].
    rewrite with_spam_score_eq. cbn [bind].
    rewrite (getitem_absent _ _ Hc). reflexivity.
Qed.

End Mapper.

(** X10, on three files and a map that names the third field twice. *)
Lemma attachments_by_count_witness :
  returned (option_map (map content_id))
    (attachments_of (L := Sample.library) Payloads.three_files) =
  Some (Some [Some "<b>"; None; Some "<c>"]).
Proof.
  destruct (attachments_of (L := Sample.library) Payloads.three_files)
    as [atts | x] eqn:Hatts.
  - destruct (attachments_by_count (L := Sample.library) Payloads.three_files
                "3" 3%Z atts eq_refl eq_refl Hatts)
      as (entries & l & _ & -> & Hlen & _).
    assert (Hval : returned (option_map (map content_id))
                     (attachments_of (L := Sample.library)
                        Payloads.three_files) =
                   Some (Some [Some "<b>"; None; Some "<c>"]))
      by (vm_compute; reflexivity).
    rewrite Hatts in Hval. exact Hval.
  - assert (Hret : raised (attachments_of (L := Sample.library)
                             Payloads.three_files) = None)
      by (vm_compute; reflexivity).
    rewrite Hatts in Hret. discriminate Hret.
Defined.

(** X11, on a request with a file and a map that is not JSON. *)
Lemma no_attachment_count_witness :
  attachments_of (L := Sample.library) Payloads.no_count = Return None.
Proof.
  exact (proj1 (no_attachment_count (L := Sample.library)
                  (C := Sample.collaborators) Sample.view Payloads.no_count
                  eq_refl)).
Defined.

(** X12, on a count that is not a number. *)
Lemma attachments_errors_witness :
  attachments_of (L := Sample.library) Payloads.raw_beside_parsed =
  raise_ ValueError.
Proof.
  exact (proj1 (attachments_errors (L := Sample.library)
                  Payloads.raw_beside_parsed "many" eq_refl) eq_refl).
Defined.

(** X13, on parsed fields without headers. *)
Lemma parsed_headers_required_witness :
  raised (esp_to_anymail_event (L := Sample.library)
            (C := Sample.collaborators) Sample.view Payloads.headless) =
  Some (Builtin KeyError).
Proof.
  rewrite (proj2 (proj1 (parsed_headers_required (L := Sample.library)
                           (C := Sample.collaborators) Sample.view
                           Payloads.headless None eq_refl) eq_refl) eq_refl).
  reflexivity.
Defined.

(** X14, on raw MIME beside a count and headers that could not be read. *)
Lemma raw_mime_takes_precedence_witness :
  returned (fun m => text (parts m))
    (message_of (L := Sample.library) (C := Sample.collaborators)
       Sample.view Payloads.raw_beside_parsed) = Some (Some "hello").
Proof.
  rewrite (proj1 (raw_mime_takes_precedence (L := Sample.library)
                    (C := Sample.collaborators) Sample.view
                    Payloads.raw_beside_parsed _ eq_refl)).
  vm_compute. reflexivity.
Defined.

(** X15, on a flag spelled [Yes]. *)
Lemma spam_detected_flag_witness :
  returned (fun ev => spam_detected (message ev))
    (esp_to_anymail_event (L := Sample.library) (C := Sample.collaborators)
       Sample.view Payloads.three_files) = Some (Some true).
Proof.
  destruct (esp_to_anymail_event (L := Sample.library)
              (C := Sample.collaborators) Sample.view Payloads.three_files)
    as [ev | x] eqn:Hev.
  - destruct (spam_detected_flag (L := Sample.library)
                (C := Sample.collaborators) Sample.view Payloads.three_files
                ev Hev) as (flag & Hflag & Hiff).
    assert (Hheader : returned (fun ev => header (message ev) "X-Mailgun-Sflag")
                        (esp_to_anymail_event (L := Sample.library)
                           (C := Sample.collaborators) Sample.view
                           Payloads.three_files) = Some (Some "Yes"))
      by (vm_compute; reflexivity).
    rewrite Hev in Hheader. cbn [returned] in Hheader |- *.
    injection Hheader as Hheader. rewrite Hflag. do 2 f_equal.
    apply Hiff. exists "Yes". split; [exact Hheader | cbn; tauto].
  - assert (Hret : raised (esp_to_anymail_event (L := Sample.library)
                             (C := Sample.collaborators) Sample.view
                             Payloads.three_files) = None)
      by (vm_compute; reflexivity).
    rewrite Hev in Hret. discriminate Hret.
Defined.

(** X16, on a request with a sender and no recipient. *)
Lemma envelope_from_post_witness :
  returned (fun ev => (envelope_sender (message ev),
                       envelope_recipient (message ev)))
    (esp_to_anymail_event (L := Sample.library) (C := Sample.collaborators)
       Sample.view Payloads.no_count) = Some (Some "a@example.com", None).
Proof.
  destruct (esp_to_anymail_event (L := Sample.library)
              (C := Sample.collaborators) Sample.view Payloads.no_count)
    as [ev | x] eqn:Hev.
  - destruct (envelope_from_post (L := Sample.library)
                (C := Sample.collaborators) Sample.view Payloads.no_count
                ev Hev) as (Hs & Hr & _).
    cbn [returned]. rewrite Hs, Hr. reflexivity.
  - assert (Hret : raised (esp_to_anymail_event (L := Sample.library)
                             (C := Sample.collaborators) Sample.view
                             Payloads.no_count) = None)
      by (vm_compute; reflexivity).
    rewrite Hev in Hret. discriminate Hret.
Defined.

End InboundExtras.
